(** * Persona-driven evaluation engine

    A shallow embedding of [components/active_persona.py] and
    [components/evaluator.py]: the conversational persona (history, input
    normalisation, backend call) and the evaluation runner (trial loop,
    brace-matching JSON extraction, merge with trial metadata).

    Modelling choices.
    - Python text is a [string]; the scanner only compares characters
      with the two braces, so the byte view and the code-point view of a
      text agree on where the braces are.
    - A dict is an association list in insertion order with string keys.
    - Stateful code is a function from the machine state to the new state
      and either a value or a raised exception; [exn] lists subclasses of
      [Exception], which is what [except Exception] catches.
    - The model service, the files on disk and the JSON decoder are the
      fields of the class [Collaborators]; general theorems hold for every
      instance, concrete runs use a scripted backend and the decoder of
      module [Json].
    - Calls of [Logger] write to a log file and are left out;
      [evaluate_and_save], which hands the records of [evaluate] to
      pandas, is left out as well. *)

From Stdlib Require Import String Ascii List ZArith Lia Bool.
Import ListNotations.
Open Scope string_scope.
Open Scope list_scope.

Set Warnings "-register-all".

(** ** Python values *)

(** The values that travel through the engine: message parts handed to
    [interact], the content of conversation turns, and what [json.loads]
    returns.  Dictionaries have string keys and keep insertion order. *)
Inductive value : Type :=
| VNone
| VBool (b : bool)
| VInt (z : Z)
| VFloat (lexeme : string)
| VStr (s : string)
| VList (l : list value)
| VDict (d : list (string * value)).

Definition dict := list (string * value).

(** [d.get(key)] *)
Fixpoint dict_get (key : string) (d : dict) : option value :=
  match d with
  | [] => None
  | (k, v) :: rest => if String.eqb k key then Some v else dict_get key rest
  end.

(** [d[key] = v]: an existing key keeps its position and takes the new
    value, a new key goes last. *)
Fixpoint dict_setitem (key : string) (v : value) (d : dict) : dict :=
  match d with
  | [] => [(key, v)]
  | (k, w) :: rest =>
      if String.eqb k key then (k, v) :: rest
      else (k, w) :: dict_setitem key v rest
  end.

(** [d.update(other)] for a dict [other]: one [d[k] = v] per item of
    [other], in order. *)
Definition dict_update (d other : dict) : dict :=
  fold_left (fun acc kv => dict_setitem (fst kv) (snd kv) acc) other d.

(** [v == s] for a string literal [s]. *)
Definition eq_str (v : option value) (s : string) : bool :=
  match v with
  | Some (VStr t) => String.eqb t s
  | _ => false
  end.

(** ** Exceptions *)

(** The subclasses of [Exception] that the engine raises or lets through.
    External collaborators (backend, transcription) may raise any of them;
    [ExternalError] stands for their own failure classes. *)
Inductive exn : Type :=
| FileNotFoundError (path : string)
| IsADirectoryError (path : string)
| KeyError (key : string)
| AttributeError (attr : string)
| TypeError (msg : string)
| IndexError (msg : string)
| ValueError (msg : string)
| JSONDecodeError (doc : string)
| ExternalError (msg : string).

Inductive outcome (A : Type) : Type :=
| Return (a : A)
| Raise (e : exn).
Arguments Return {A} a.
Arguments Raise {A} e.

Definition obind {A C : Type} (o : outcome A) (k : A -> outcome C) : outcome C :=
  match o with
  | Return a => k a
  | Raise e => Raise e
  end.

(** [d[key]] *)
Definition dict_getitem (key : string) (d : dict) : outcome value :=
  match dict_get key d with
  | Some v => Return v
  | None => Raise (KeyError key)
  end.

(** ** Characters that cannot be written inside a literal *)

Definition dquote : ascii := ascii_of_nat 34.
Definition LF : string := String (ascii_of_nat 10) EmptyString.

(** Writes a text with apostrophes where the Python text has double
    quotes: [py "{'a': 1}"] is the seven-character text [{"a": 1}]. *)
Fixpoint py (s : string) : string :=
  match s with
  | EmptyString => EmptyString
  | String c rest => String (if Ascii.eqb c "'" then dquote else c) (py rest)
  end.

(** ** File system and base64 *)

(** What a path names: nothing, a directory, or a regular file that opens
    and reads to [data]. *)
Inductive node : Type :=
| Missing
| Directory
| Regular (data : string).

Definition filesystem := string -> node.

(** [os.path.exists(path)] *)
Definition os_path_exists (fs : filesystem) (path : string) : bool :=
  match fs path with
  | Missing => false
  | _ => true
  end.

(** [open(path, 'rb')] followed by [read()] *)
Definition open_rb_read (fs : filesystem) (path : string) : outcome string :=
  match fs path with
  | Missing => Raise (FileNotFoundError path)
  | Directory => Raise (IsADirectoryError path)
  | Regular data => Return data
  end.

Definition b64_alphabet : string :=
  "ABCDEFGHIJKLMNOPQRSTUVWXYZabcdefghijklmnopqrstuvwxyz0123456789+/".

Definition b64_digit (n : N) : ascii :=
  match String.get (N.to_nat n) b64_alphabet with
  | Some c => c
  | None => "="%char
  end.

(** [base64.b64encode(data).decode('utf-8')] *)
Fixpoint b64encode (data : string) : string :=
  match data with
  | EmptyString => EmptyString
  | String a EmptyString =>
      let x := N_of_ascii a in
      String (b64_digit (x / 4))
        (String (b64_digit ((x mod 4) * 16)) "==")
  | String a (String b EmptyString) =>
      let x := N_of_ascii a in
      let y := N_of_ascii b in
      String (b64_digit (x / 4))
        (String (b64_digit ((x mod 4) * 16 + y / 16))
          (String (b64_digit ((y mod 16) * 4)) "="))
  | String a (String b (String c rest)) =>
      let x := N_of_ascii a in
      let y := N_of_ascii b in
      let z := N_of_ascii c in
      String (b64_digit (x / 4))
        (String (b64_digit ((x mod 4) * 16 + y / 16))
          (String (b64_digit ((y mod 16) * 4 + z / 64))
            (String (b64_digit (z mod 64)) (b64encode rest))))
  end%N.

(** ** JSON extraction: [EvaluatorBase._extract_json] *)

Definition is_open (c : ascii) : bool := Ascii.eqb c "{".
Definition is_close (c : ascii) : bool := Ascii.eqb c "}".

(** [re.search] with the pattern "an opening brace, then anything" under
    [re.DOTALL], group 1: the text from its first opening brace to its
    end, when there is one. *)
Fixpoint re_search_brace (text : string) : option string :=
  match text with
  | EmptyString => None
  | String c rest => if is_open c then Some text else re_search_brace rest
  end.

(** [json_part[:n]] *)
Definition slice_to (n : nat) (s : string) : string := substring 0 n s.

(** [stack.pop()] *)
Definition list_pop (stack : list nat) : outcome (list nat) :=
  match stack with
  | [] => Raise (IndexError "pop from empty list")
  | _ => Return (removelast stack)
  end.

(** The [for i, c in enumerate(json_part)] loop; [chars] is what is left
    to read, [i] the index of its head. *)
Fixpoint scan_stack (json_part chars : string) (i : nat) (stack : list nat)
  : outcome string :=
  match chars with
  | EmptyString => Raise (ValueError "Could not extract complete JSON object")
  | String c rest =>
      if is_open c then scan_stack json_part rest (S i) (stack ++ [i])
      else if is_close c then
        match list_pop stack with
        | Raise e => Raise e
        | Return stack' =>
            match stack' with
            | [] => Return (slice_to (i + 1) json_part)
            | _ => scan_stack json_part rest (S i) stack'
            end
        end
      else scan_stack json_part rest (S i) stack
  end.

Definition _extract_json (text : string) : outcome string :=
  match re_search_brace text with
  | None => Raise (ValueError "No JSON object found in text")
  | Some json_part => scan_stack json_part json_part 0 []
  end.

(** The extraction as the specification words it: from the first opening
    brace, a depth counter goes up on an opening brace and down on a
    closing one; when it is back at zero the text read so far is the
    candidate.  [taken] holds the characters read so far, last first. *)
Fixpoint scan_depth (chars : string) (depth : Z) (taken : list ascii)
  : option string :=
  match chars with
  | EmptyString => None
  | String c rest =>
      let depth' := if is_open c then (depth + 1)%Z
                    else if is_close c then (depth - 1)%Z
                    else depth in
      if (is_open c || is_close c) && (depth' =? 0)%Z
      then Some (string_of_list_ascii (rev (c :: taken)))
      else scan_depth rest depth' (c :: taken)
  end.

Definition extract_by_depth (text : string) : outcome string :=
  match re_search_brace text with
  | None => Raise (ValueError "No JSON object found in text")
  | Some from_brace =>
      match scan_depth from_brace 0 [] with
      | Some candidate => Return candidate
      | None => Raise (ValueError "Could not extract complete JSON object")
      end
  end.

Definition example_prose : string :=
  "Here is my answer:" ++ LF ++ py "{'q01': 5, 'q02': 3}" ++ LF ++ "Thanks!".

Definition example_nested : string := py "{'a': {'b': 1}}".

(** ** [json.loads]

    The decoder of Python's standard library, written out so that concrete
    responses can be run: objects, arrays, strings with their escapes,
    numbers, the literals, and the rule that nothing but white space may
    follow the value.  An integer literal becomes [VInt]; a literal with a
    fraction or an exponent keeps its lexeme in [VFloat].  Code points of
    [\u] escapes are stored in UTF-8. *)
Module Json.

Definition is_ws (c : ascii) : bool :=
  Ascii.eqb c " " || Ascii.eqb c (ascii_of_nat 9)
  || Ascii.eqb c (ascii_of_nat 10) || Ascii.eqb c (ascii_of_nat 13).

Fixpoint skip_ws (s : string) : string :=
  match s with
  | String c rest => if is_ws c then skip_ws rest else s
  | EmptyString => s
  end.

Definition is_digit (c : ascii) : bool :=
  (48 <=? nat_of_ascii c)%nat && (nat_of_ascii c <=? 57)%nat.

(** The longest run of digits at the head of [s], and what follows. *)
Fixpoint span_digits (s : string) : string * string :=
  match s with
  | String c rest =>
      if is_digit c
      then let (ds, r) := span_digits rest in (String c ds, r)
      else (EmptyString, s)
  | EmptyString => (EmptyString, s)
  end.

Fixpoint digits_value (ds : string) (acc : Z) : Z :=
  match ds with
  | String c rest => digits_value rest (10 * acc + (Z.of_nat (nat_of_ascii c) - 48))
  | EmptyString => acc
  end.

Definition hex_value (c : ascii) : option N :=
  let n := N_of_ascii c in
  if ((48 <=? n) && (n <=? 57))%N then Some (n - 48)%N
  else if ((65 <=? n) && (n <=? 70))%N then Some (n - 55)%N
  else if ((97 <=? n) && (n <=? 102))%N then Some (n - 87)%N
  else None.

Definition hex4 (a b c d : ascii) : option N :=
  match hex_value a, hex_value b, hex_value c, hex_value d with
  | Some x, Some y, Some z, Some w => Some (((x * 16 + y) * 16 + z) * 16 + w)%N
  | _, _, _, _ => None
  end.

Definition byte_of (n : N) : ascii := ascii_of_N n.

(** UTF-8 bytes of a code point, last byte first. *)
Definition utf8_rev (cp : N) : list ascii :=
  if (cp <? 128)%N then [byte_of cp]
  else if (cp <? 2048)%N then
    [byte_of (128 + cp mod 64); byte_of (192 + cp / 64)]
  else if (cp <? 65536)%N then
    [byte_of (128 + cp mod 64); byte_of (128 + (cp / 64) mod 64);
     byte_of (224 + cp / 4096)]
  else
    [byte_of (128 + cp mod 64); byte_of (128 + (cp / 64) mod 64);
     byte_of (128 + (cp / 4096) mod 64); byte_of (240 + cp / 262144)].

Definition simple_escape (e : ascii) : option ascii :=
  if Ascii.eqb e dquote then Some dquote
  else if Ascii.eqb e "\" then Some "\"%char
  else if Ascii.eqb e "/" then Some "/"%char
  else if Ascii.eqb e "b" then Some (ascii_of_nat 8)
  else if Ascii.eqb e "f" then Some (ascii_of_nat 12)
  else if Ascii.eqb e "n" then Some (ascii_of_nat 10)
  else if Ascii.eqb e "r" then Some (ascii_of_nat 13)
  else if Ascii.eqb e "t" then Some (ascii_of_nat 9)
  else None.

Definition is_high (cp : N) : bool := ((55296 <=? cp) && (cp <=? 56319))%N.
Definition is_low (cp : N) : bool := ((56320 <=? cp) && (cp <=? 57343))%N.

(** The body of a string literal, read after its opening quote: the
    decoded text and what follows the closing quote.  [acc] holds the
    decoded characters, last first. *)
Fixpoint scan_string (s : string) (acc : list ascii) : option (string * string) :=
  match s with
  | EmptyString => None
  | String c r =>
      if Ascii.eqb c dquote then Some (string_of_list_ascii (rev acc), r)
      else if Ascii.eqb c "\" then
        match r with
        | EmptyString => None
        | String e r2 =>
            if Ascii.eqb e "u" then
              match r2 with
              | String h1 (String h2 (String h3 (String h4 r3))) =>
                  match hex4 h1 h2 h3 h4 with
                  | None => None
                  | Some cp =>
                      match r3 with
                      | String b (String u (String l1 (String l2 (String l3 (String l4 r4))))) =>
                          match hex4 l1 l2 l3 l4 with
                          | Some lo =>
                              if is_high cp && Ascii.eqb b "\" && Ascii.eqb u "u" && is_low lo
                              then scan_string r4
                                     (utf8_rev (65536 + (cp - 55296) * 1024 + (lo - 56320)) ++ acc)
                              else scan_string r3 (utf8_rev cp ++ acc)
                          | None => scan_string r3 (utf8_rev cp ++ acc)
                          end
                      | _ => scan_string r3 (utf8_rev cp ++ acc)
                      end
                  end
              | _ => None
              end
            else
              match simple_escape e with
              | Some d => scan_string r2 (d :: acc)
              | None => None
              end
        end
      else if (nat_of_ascii c <? 32)%nat then None
      else scan_string r (c :: acc)
  end%N.

Definition starts_with (p s : string) : option string :=
  if String.prefix p s then Some (substring (String.length p) (String.length s - String.length p) s)
  else None.

(** A number literal: sign, integer part, optional fraction, optional
    exponent. *)
Definition scan_number (s : string) : option (value * string) :=
  let (neg, body) := match s with
                     | String "-" r => (true, r)
                     | _ => (false, s)
                     end in
  let (int_ds, r1) := span_digits body in
  let int_part :=
    match int_ds with
    | EmptyString => None
    | String "0" _ => Some ("0", substring 1 (String.length body - 1) body)
    | _ => Some (int_ds, r1)
    end in
  match int_part with
  | None => None
  | Some (ds, after_int) =>
      let (frac, after_frac) :=
        match after_int with
        | String "." r =>
            match span_digits r with
            | (EmptyString, _) => (EmptyString, after_int)
            | (fs, r') => (String "." fs, r')
            end
        | _ => (EmptyString, after_int)
        end in
      let (expo, after_exp) :=
        match after_frac with
        | String e r =>
            if Ascii.eqb e "e" || Ascii.eqb e "E" then
              let (sign, r') := match r with
                                | String "+" t => ("+", t)
                                | String "-" t => ("-", t)
                                | _ => (EmptyString, r)
                                end in
              match span_digits r' with
              | (EmptyString, _) => (EmptyString, after_frac)
              | (es, r'') => (String e (sign ++ es), r'')
              end
            else (EmptyString, after_frac)
        | _ => (EmptyString, after_frac)
        end in
      let sign := if neg then "-" else EmptyString in
      match frac, expo with
      | EmptyString, EmptyString =>
          Some (VInt (if neg then - digits_value ds 0 else digits_value ds 0), after_exp)
      | _, _ => Some (VFloat (sign ++ ds ++ frac ++ expo), after_exp)
      end
  end%Z.

Definition scan_scalar (s : string) : option (value * string) :=
  match starts_with "null" s with
  | Some r => Some (VNone, r)
  | None =>
  match starts_with "true" s with
  | Some r => Some (VBool true, r)
  | None =>
  match starts_with "false" s with
  | Some r => Some (VBool false, r)
  | None =>
  match scan_number s with
  | Some res => Some res
  | None =>
  match starts_with "NaN" s with
  | Some r => Some (VFloat "NaN", r)
  | None =>
  match starts_with "Infinity" s with
  | Some r => Some (VFloat "Infinity", r)
  | None =>
  match starts_with "-Infinity" s with
  | Some r => Some (VFloat "-Infinity", r)
  | None => None
  end end end end end end end.

(** One JSON value at the head of [s]; [members] and [elements] read the
    inside of an object and of an array that are not empty. *)
Fixpoint scan_value (fuel : nat) (s : string) {struct fuel} : option (value * string) :=
  match fuel with
  | O => None
  | S fuel' =>
      match s with
      | EmptyString => None
      | String c r =>
          if Ascii.eqb c dquote then
            match scan_string r [] with
            | Some (str, r') => Some (VStr str, r')
            | None => None
            end
          else if Ascii.eqb c "{" then
            match skip_ws r with
            | String "}" r' => Some (VDict [], r')
            | r' => members fuel' r' []
            end
          else if Ascii.eqb c "[" then
            match skip_ws r with
            | String "]" r' => Some (VList [], r')
            | r' => elements fuel' r' []
            end
          else scan_scalar s
      end
  end
with members (fuel : nat) (s : string) (pairs : dict) {struct fuel}
  : option (value * string) :=
  match fuel with
  | O => None
  | S fuel' =>
      match s with
      | EmptyString => None
      | String c r =>
          if Ascii.eqb c dquote then
            match scan_string r [] with
            | None => None
            | Some (key, r1) =>
                match skip_ws r1 with
                | String ":" r2 =>
                    match scan_value fuel' (skip_ws r2) with
                    | None => None
                    | Some (v, r3) =>
                        let pairs' := dict_setitem key v pairs in
                        match skip_ws r3 with
                        | String "}" r4 => Some (VDict pairs', r4)
                        | String "," r4 => members fuel' (skip_ws r4) pairs'
                        | _ => None
                        end
                    end
                | _ => None
                end
            end
          else None
      end
  end
with elements (fuel : nat) (s : string) (items : list value) {struct fuel}
  : option (value * string) :=
  match fuel with
  | O => None
  | S fuel' =>
      match scan_value fuel' s with
      | None => None
      | Some (v, r1) =>
          let items' := items ++ [v] in
          match skip_ws r1 with
          | String "]" r2 => Some (VList items', r2)
          | String "," r2 => elements fuel' (skip_ws r2) items'
          | _ => None
          end
      end
  end.

(** [JSONDecoder.decode]: one value, white space allowed around it, and
    nothing else. *)
Definition decode (s : string) : option value :=
  match scan_value (S (String.length s)) (skip_ws s) with
  | Some (v, r) =>
      match skip_ws r with
      | EmptyString => Some v
      | _ => None
      end
  | None => None
  end.

End Json.

(** ** A state monad with exceptions

    A computation takes the machine state and gives the new state with
    either a value or a raised exception.  What was written to the state
    before a [raise] stays written, as in Python. *)
Definition M (S A : Type) : Type := S -> S * outcome A.

Definition ret {S A : Type} (a : A) : M S A := fun s => (s, Return a).

Definition raise {S A : Type} (e : exn) : M S A := fun s => (s, Raise e).

Definition bind {S A C : Type} (m : M S A) (k : A -> M S C) : M S C :=
  fun s =>
    match m s with
    | (s', Return a) => k a s'
    | (s', Raise e) => (s', Raise e)
    end.

(** [try: m  except Exception as e: handler e] *)
Definition try_except {S A : Type} (m : M S A) (handler : exn -> M S A) : M S A :=
  fun s =>
    match m s with
    | (s', Return a) => (s', Return a)
    | (s', Raise e) => handler e s'
    end.

Definition lift {S A : Type} (o : outcome A) : M S A := fun s => (s, o).

Declare Scope monad_scope.
Delimit Scope monad_scope with monad.
Notation "x <- c ;; k" := (bind c (fun x => k))
  (at level 61, c at next level, right associativity) : monad_scope.
Notation "c ;;; k" := (bind c (fun _ => k))
  (at level 61, right associativity) : monad_scope.

(** A [for x in xs] loop that threads a local variable [a]. *)
Fixpoint for_each {S X A : Type} (xs : list X) (body : X -> A -> M S A) (a : A)
  : M S A :=
  match xs with
  | [] => ret a
  | x :: rest => bind (body x a) (for_each rest body)
  end.

(** [range(lo, hi)] *)
Definition py_range (lo hi : Z) : list Z :=
  map (fun k => (lo + Z.of_nat k)%Z) (seq 0 (Z.to_nat (hi - lo))).

(** ** Conversation state *)

(** [LLMClient]: what the engine reads of it is the model label; the
    service behind [invoke] is the [Backend] of the section below. *)
Record LLMClient : Type := { model_name : string }.

(** [WhisperTranscriber]: speech to text, an external collaborator. *)
Record WhisperTranscriber : Type := { transcribe : value -> outcome string }.

(** One entry of [message_history]: the dict with keys role and content. *)
Record turn : Type := { role : string; content : value }.

(** The attributes of an [ActivePersona] object.  [whisper_transcriber]
    is [None] while the object has no attribute of that name. *)
Record ActivePersona : Type := {
  name : string;
  llm_client : LLMClient;
  system_prompt : option string;
  message_history : list turn;
  whisper_transcriber : option WhisperTranscriber
}.

Definition with_history (self : ActivePersona) (h : list turn) : ActivePersona :=
  {| name := name self;
     llm_client := llm_client self;
     system_prompt := system_prompt self;
     message_history := h;
     whisper_transcriber := whisper_transcriber self |}.

Definition system_turn (self : ActivePersona) : turn :=
  {| role := "system";
     content := match system_prompt self with
                | Some p => VStr p
                | None => VNone
                end |}.

Definition user_turn (processed_messages : list value) : turn :=
  {| role := "user"; content := VList processed_messages |}.

Definition assistant_turn (response : string) : turn :=
  {| role := "assistant"; content := VStr response |}.

(** [ActivePersona.reset_history] *)
Definition reset_history (self : ActivePersona) : ActivePersona :=
  with_history (with_history self []) [system_turn self].

(** [ActivePersona.__init__]: the four assignments and the reset; no
    transcriber is assigned. *)
Definition ActivePersona__init__ (name : string) (llm_client : LLMClient)
    (system_prompt : option string) : ActivePersona :=
  reset_history
    {| name := name;
       llm_client := llm_client;
       system_prompt := system_prompt;
       message_history := [];
       whisper_transcriber := None |}.

(** [ActivePersona.get_complete_name] *)
Definition get_complete_name (self : ActivePersona) : string :=
  name self ++ "_" ++ model_name (llm_client self).

Definition text_part (text : string) : value :=
  VDict [("type", VStr "text"); ("text", VStr text)].

Definition image_part (path : string) : value :=
  VDict [("type", VStr "image"); ("path", VStr path)].

Definition audio_part (path : string) : value :=
  VDict [("type", VStr "audio"); ("path", VStr path)].

Definition image_url_part (img_base64 : string) : value :=
  VDict [("type", VStr "image_url");
         ("image_url", VDict [("url", VStr ("data:image/jpeg;base64," ++ img_base64))])].

(** ** Evaluator configuration *)

(** The attributes of an [EvaluatorBase] object and its overridable hook
    [_preprocess_entry]. *)
Record EvaluatorBase : Type := {
  evaluation_prompt : string;
  auto_reset : bool;
  images_paths : list string;
  _preprocess_entry : value -> outcome value
}.

(** [EvaluatorBase.__init__] with the hook of the base class, which
    returns its argument.  [NielsenEvaluator] overrides nothing that
    [evaluate] uses. *)
Definition EvaluatorBase__init__ (evaluation_prompt : string) (auto_reset : bool)
  : EvaluatorBase :=
  {| evaluation_prompt := evaluation_prompt;
     auto_reset := auto_reset;
     images_paths := [];
     _preprocess_entry := fun entry => Return entry |}.

Definition NielsenEvaluator := EvaluatorBase__init__.

(** [EvaluatorBase.set_images] *)
Definition set_images (self : EvaluatorBase) (paths : list string) : EvaluatorBase :=
  {| evaluation_prompt := evaluation_prompt self;
     auto_reset := auto_reset self;
     images_paths := paths;
     _preprocess_entry := _preprocess_entry self |}.

(** [entry.update(processed_entry)]: a dict argument is merged in; the
    model raises [TypeError] for every other value (Python also accepts
    an iterable of pairs, which a decoded JSON object never is). *)
Definition update_entry (entry : dict) (processed_entry : value) : outcome dict :=
  match processed_entry with
  | VDict other => Return (dict_update entry other)
  | _ => Raise (TypeError "object is not a mapping")
  end.

(** ** The engine *)

(** The external collaborators: the model service behind
    [LLMClient.invoke], with a state of its own, the files on disk, and
    the JSON decoder. *)
Class Collaborators : Type := {
  Backend : Type;
  llm_invoke : Backend -> list turn -> Backend * outcome string;
  fs : filesystem;
  json_decode : string -> option value
}.

Section Engine.

Context {W : Collaborators}.

(** The machine state: the persona object, the model service, and every
    conversation handed to [LLMClient.invoke] so far, in call order. *)
Record state : Type := {
  persona : ActivePersona;
  remote : Backend;
  requests : list (list turn)
}.

Definition set_persona (s : state) (p : ActivePersona) : state :=
  {| persona := p; remote := remote s; requests := requests s |}.

(** [self.message_history.append(t)] *)
Definition history_append (t : turn) : M state unit :=
  fun s =>
    (set_persona s (with_history (persona s) (message_history (persona s) ++ [t])),
     Return tt).

(** [self.llm_client.invoke(self.message_history)] *)
Definition llm_client_invoke : M state string :=
  fun s =>
    let h := message_history (persona s) in
    let (b, r) := llm_invoke (remote s) h in
    ({| persona := persona s; remote := b; requests := requests s ++ [h] |}, r).

(** [active_persona.reset_history()] *)
Definition do_reset_history : M state unit :=
  fun s => (set_persona s (reset_history (persona s)), Return tt).

(** The state after a user turn went out as the last turn of [h] and the
    backend raised. *)
Definition after_failure (s : state) (h : list turn) (b : Backend) : state :=
  {| persona := with_history (persona s) h;
     remote := b;
     requests := requests s ++ [h] |}.

(** The state after a user turn went out as the last turn of [h] and the
    backend gave [response]. *)
Definition after_answer (s : state) (h : list turn) (b : Backend) (response : string)
  : state :=
  {| persona := with_history (persona s) (h ++ [assistant_turn response]);
     remote := b;
     requests := requests s ++ [h] |}.

(** [open(image_path, 'rb')] and the read; a path that is not a string
    raises (file descriptors are not modelled). *)
Definition read_image (image_path : value) : outcome string :=
  match image_path with
  | VStr p => open_rb_read fs p
  | _ => Raise (TypeError "expected str, bytes or os.PathLike object")
  end.

(** [self.whisper_transcriber.transcribe(audio_path)] *)
Definition self_transcribe (self : ActivePersona) (audio_path : value) : outcome string :=
  match whisper_transcriber self with
  | None => Raise (AttributeError "'ActivePersona' object has no attribute 'whisper_transcriber'")
  | Some t => transcribe t audio_path
  end.

(** The [for message in messages] loop of [interact]; both [except]
    clauses of the image branch and the one of the audio branch log and
    raise again. *)
Fixpoint process_messages (self : ActivePersona) (messages : list value)
    (processed_messages : list value) : outcome (list value) :=
  match messages with
  | [] => Return processed_messages
  | message :: rest =>
      match message with
      | VStr text =>
          process_messages self rest (processed_messages ++ [text_part text])
      | VDict d =>
          if eq_str (dict_get "type" d) "text" then
            process_messages self rest (processed_messages ++ [message])
          else if eq_str (dict_get "type" d) "image" then
            match dict_getitem "path" d with
            | Raise e => Raise e
            | Return image_path =>
                match read_image image_path with
                | Raise e => Raise e
                | Return data =>
                    process_messages self rest
                      (processed_messages ++ [image_url_part (b64encode data)])
                end
            end
          else if eq_str (dict_get "type" d) "audio" then
            match dict_getitem "path" d with
            | Raise e => Raise e
            | Return audio_path =>
                match self_transcribe self audio_path with
                | Raise e => Raise e
                | Return transcription =>
                    process_messages self rest
                      (processed_messages ++ [text_part transcription])
                end
            end
          else process_messages self rest processed_messages
      | _ => process_messages self rest processed_messages
      end
  end.

(** [messages] as a list: a value that is not a list is wrapped. *)
Definition as_list (messages : value) : list value :=
  match messages with
  | VList l => l
  | m => [m]
  end.

(** The second half of [interact]: the user turn goes into the history,
    the whole history goes to the backend, the answer goes into the
    history. *)
Definition send_user_turn (processed_messages : list value) : M state string :=
  (history_append (user_turn processed_messages) ;;;
   response <- llm_client_invoke ;;
   history_append (assistant_turn response) ;;;
   ret response)%monad.

(** [ActivePersona.interact] *)
Definition interact (messages : value) : M state string :=
  fun s =>
    (processed_messages <- lift (process_messages (persona s) (as_list messages) []) ;;
     send_user_turn processed_messages)%monad s.

(** The image loop of [_prepare_evaluation_messages]. *)
Fixpoint add_images (paths : list string) (messages : list value) : list value :=
  match paths with
  | [] => messages
  | image_path :: rest =>
      if os_path_exists fs image_path
      then add_images rest (messages ++ [image_part image_path])
      else add_images rest messages
  end.

(** [EvaluatorBase._prepare_evaluation_messages] *)
Definition _prepare_evaluation_messages (self : EvaluatorBase) : list value :=
  add_images (images_paths self) [text_part (evaluation_prompt self)].

(** [json.loads] *)
Definition json_loads (doc : string) : outcome value :=
  match json_decode doc with
  | Some v => Return v
  | None => Raise (JSONDecodeError doc)
  end.

(** The base record of a call: [now] is what
    [datetime.now().isoformat()] read when [evaluate] began. *)
Definition entry_template (now : string) (active_persona : ActivePersona) : dict :=
  [("timestamp", VStr now);
   ("persona_name", VStr (name active_persona));
   ("model", VStr (model_name (llm_client active_persona)))].

(** [processed_entry] of one response: the extracted candidate decoded
    and passed through the hook. *)
Definition processed_entry_of (self : EvaluatorBase) (response : string) : outcome value :=
  obind (obind (_extract_json response) json_loads) (_preprocess_entry self).

(** [entry] of one response: the processed entry merged over a copy of
    the template. *)
Definition entry_of_response (self : EvaluatorBase) (template : dict) (response : string)
  : outcome dict :=
  obind (processed_entry_of self response) (update_entry template).

(** The body of the [try] block of one iteration. *)
Definition trial_body (self : EvaluatorBase) (messages : list value) (template : dict)
    (evaluation_results : list dict) : M state (list dict) :=
  ((if auto_reset self then do_reset_history else ret tt) ;;;
   response <- interact (VList messages) ;;
   entry <- lift (entry_of_response self template response) ;;
   ret (evaluation_results ++ [entry]))%monad.

(** One iteration: the [try] block, and the [except Exception] clause
    that logs and goes on with the results as they were. *)
Definition trial (self : EvaluatorBase) (messages : list value) (template : dict)
    (iteration : Z) (evaluation_results : list dict) : M state (list dict) :=
  try_except (trial_body self messages template evaluation_results)
             (fun _ => ret evaluation_results).

(** [EvaluatorBase.evaluate] *)
Definition evaluate (self : EvaluatorBase) (now : string) (iterations : Z)
  : M state (list dict) :=
  fun s =>
    let iterations := if (iterations <? 1)%Z then 1%Z else iterations in
    let messages := _prepare_evaluation_messages self in
    let template := entry_template now (persona s) in
    for_each (py_range 1 (iterations + 1)) (trial self messages template) [] s.

End Engine.

(** ** Stub collaborators *)

(** A backend that plays a script: each call takes the next scripted
    outcome; an exhausted script raises. *)
Definition scripted_invoke (script : list (outcome string)) (h : list turn)
  : list (outcome string) * outcome string :=
  match script with
  | [] => ([], Raise (ExternalError "script exhausted"))
  | r :: rest => (rest, r)
  end.

Definition scripted (files : filesystem) (decode : string -> option value)
  : Collaborators :=
  {| Backend := list (outcome string);
     llm_invoke := scripted_invoke;
     fs := files;
     json_decode := decode |}.


(** A backend that counts its calls and always gives the same answer. *)
Definition constant_invoke (answer : outcome string) (calls : nat) (h : list turn)
  : nat * outcome string :=
  (S calls, answer).

Definition constant (answer : outcome string) (files : filesystem) : Collaborators :=
  {| Backend := nat;
     llm_invoke := constant_invoke answer;
     fs := files;
     json_decode := Json.decode |}.

Definition empty_fs : filesystem := fun _ => Missing.

Definition demo_fs : filesystem :=
  fun path =>
    if String.eqb path "/screens" then Directory
    else if String.eqb path "/screens/home.png" then Regular "Man"
    else Missing.

Definition demo_client : LLMClient := {| model_name := "gpt-x" |}.

Definition demo_persona : ActivePersona :=
  ActivePersona__init__ "Alice" demo_client (Some "You are Alice.").

Definition init_state {W : Collaborators} (p : ActivePersona) (b : Backend) : state :=
  {| persona := p; remote := b; requests := [] |}.

(** A scripted run over [demo_fs] with the decoder above. *)
Definition demo : Collaborators := scripted demo_fs Json.decode.

Definition demo_state (script : list (outcome string)) : state (W := demo) :=
  init_state (W := demo) demo_persona script.

Definition demo_evaluator (auto_reset : bool) : EvaluatorBase :=
  set_images (NielsenEvaluator "Rate it." auto_reset) ["/screens/home.png"; "/nope.png"].

Definition answer_1 : string := py "Sure. {'q01': 5, 'q02': 3}".
Definition answer_2 : string := py "Well: {'q01': five} sorry".
Definition answer_3 : string := py "{'q01': 4, 'q02': {'why': 'clear'}} Bye".

(** An answer that names the three keys of the base record. *)
Definition answer_colliding : string :=
  py "{'timestamp': '1999', 'persona_name': 'Mallory', 'model': 'none', 'q01': 5}".

(** A well-formed JSON object with a closing brace inside a string. *)
Definition answer_brace_in_string : string := py "{'a': '}'}".

(** ** Vocabulary of the properties *)

Definition brace_delta (c : ascii) : Z :=
  if is_open c then 1 else if is_close c then -1 else 0.

(** Opening braces minus closing braces. *)
Fixpoint brace_depth (s : string) : Z :=
  match s with
  | EmptyString => 0
  | String c rest => brace_delta c + brace_depth rest
  end.

(** [candidate] opens at its first character and closes at its last: its
    depth is zero and the depth of each proper prefix that is not empty
    is positive. *)
Definition matched_object (candidate : string) : Prop :=
  (exists body, candidate = String "{" body)
  /\ brace_depth candidate = 0%Z
  /\ forall p q, candidate = (p ++ q)%string -> p <> EmptyString -> q <> EmptyString ->
                 (0 < brace_depth p)%Z.

Definition no_open_brace (s : string) : Prop :=
  forall c, In c (list_ascii_of_string s) -> is_open c = false.

(** The parts that [interact] knows: a string, or a dict tagged text,
    image or audio. *)
Definition recognized (message : value) : bool :=
  match message with
  | VStr _ => true
  | VDict d =>
      eq_str (dict_get "type" d) "text"
      || eq_str (dict_get "type" d) "image"
      || eq_str (dict_get "type" d) "audio"
  | _ => false
  end.

(** A text that has a well-formed JSON object somewhere inside. *)
Definition contains_json_object (text : string) : Prop :=
  exists pre obj post o,
    text = (pre ++ obj ++ post)%string /\ Json.decode obj = Some (VDict o).

Section RunnerVocabulary.

Context {W : Collaborators}.

(** The state on which a trial calls [interact]: the persona reset when
    [auto_reset] is on, the state as it is otherwise. *)
Definition before_trial (self : EvaluatorBase) (s : state) : state :=
  if auto_reset self then set_persona s (reset_history (persona s)) else s.

(** What a trial leaves in [evaluation_results] after a response. *)
Definition results_after (self : EvaluatorBase) (template : dict)
    (evaluation_results : list dict) (response : string) : list dict :=
  match entry_of_response self template response with
  | Return entry => evaluation_results ++ [entry]
  | Raise _ => evaluation_results
  end.

(** Two persona objects that differ at most in their history. *)
Definition same_identity (p q : ActivePersona) : Prop :=
  with_history p [] = with_history q [].

(** A response from which a trial gets a record: its candidate decodes
    and the hook gives a dict. *)
Definition good_response (self : EvaluatorBase) (response : string) : Prop :=
  exists o, processed_entry_of self response = Return (VDict o).

(** The backend answers every call, and always with a good response. *)
Definition backend_always_good (self : EvaluatorBase) : Prop :=
  forall b h, exists b' response,
    llm_invoke b h = (b', Return response) /\ good_response self response.

(** Every configured image path that exists can be read. *)
Definition images_readable (self : EvaluatorBase) : Prop :=
  forall path, In path (images_paths self) -> fs path <> Directory.

(** An image part whose file is absent. *)
Definition absent_image (d : dict) (path : string) : Prop :=
  eq_str (dict_get "type" d) "image" = true
  /\ dict_get "path" d = Some (VStr path)
  /\ fs path = Missing.

(** The conversation as it was right before the user turn of the request
    [h] was appended: [interact] sends the history it has just extended
    by that one turn. *)
Definition before_append (h : list turn) : list turn := removelast h.

End RunnerVocabulary.

(** A part as [interact] stores it in a user turn: a dict tagged text or
    image_url. *)
Definition stored_part (part : value) : Prop :=
  exists d, part = VDict d
            /\ (eq_str (dict_get "type" d) "text" = true
                \/ eq_str (dict_get "type" d) "image_url" = true).

(** ** Around the engine: saving, naming, clients *)

(** [str.rstrip('/')] *)
Fixpoint rstrip_slash (s : string) : string :=
  match s with
  | EmptyString => EmptyString
  | String c rest =>
      match rstrip_slash rest with
      | EmptyString => if Ascii.eqb c "/" then EmptyString else String c EmptyString
      | kept => String c kept
      end
  end.

(** [str.lower()] on the letters A to Z; the texts it is applied to are
    compared with ASCII words or are class names. *)
Definition lower_char (c : ascii) : ascii :=
  let n := nat_of_ascii c in
  if ((65 <=? n) && (n <=? 90))%nat then ascii_of_nat (n + 32) else c.

Fixpoint str_lower (s : string) : string :=
  match s with
  | EmptyString => EmptyString
  | String c rest => String (lower_char c) (str_lower rest)
  end.

(** [s.split(sep)] for a separator of one character. *)
Fixpoint py_split (sep : ascii) (s : string) : list string :=
  match s with
  | EmptyString => [EmptyString]
  | String c rest =>
      if Ascii.eqb c sep then EmptyString :: py_split sep rest
      else match py_split sep rest with
           | [] => [String c EmptyString]
           | w :: ws => String c w :: ws
           end
  end.

(** [l[0]] *)
Definition list_getitem0 (l : list string) : outcome string :=
  match l with
  | [] => Raise (IndexError "list index out of range")
  | x :: _ => Return x
  end.

(** The lambda of [DataAnalyzer.merge_evaluations] that fills the persona
    column from the persona_name column; [None] is a null cell. *)
Definition persona_of_name (x : option string) : outcome string :=
  match x with
  | Some s => list_getitem0 (py_split "_" s)
  | None => Return EmptyString
  end.

(** The key under which [run_evaluations] stores, and names, the persona
    of one persona file and one model. *)
Definition persona_key (persona_name model_name : string) : string :=
  (persona_name ++ "_" ++ model_name)%string.

(** A name without an underscore. *)
Definition no_underscore (s : string) : Prop :=
  forall c, In c (list_ascii_of_string s) -> Ascii.eqb c "_" = false.

(** A run of [n] slashes. *)
Fixpoint slashes (n : nat) : string :=
  match n with
  | O => EmptyString
  | S k => String "/" (slashes k)
  end.

(** *** [evaluate_and_save] *)

Section Saving.

Context {W : Collaborators}.

(** What building the table and writing it to [csv_path] raises, if
    anything. *)
Variable write_error : string -> list dict -> option exn.

(** The engine state and the tables written so far, with their paths. *)
Record save_state : Type := {
  engine : state;
  written : list (string * list dict)
}.

Definition lift_engine {A : Type} (m : M state A) : M save_state A :=
  fun st =>
    match m (engine st) with
    | (s, r) => ({| engine := s; written := written st |}, r)
    end.

(** [pd.DataFrame(records).to_csv(csv_path, ...)] *)
Definition DataFrame_to_csv (records : list dict) (csv_path : string)
  : M save_state unit :=
  fun st =>
    match write_error csv_path records with
    | Some e => (st, Raise e)
    | None =>
        ({| engine := engine st; written := written st ++ [(csv_path, records)] |},
         Return tt)
    end.

Definition results_path (save_in persona_name class_name : string) : string :=
  ((save_in ++ "/" ++ persona_name ++ "_" ++ str_lower class_name
    ++ "_evaluation_results") ++ ".csv")%string.

(** [EvaluatorBase.evaluate_and_save]; [class_name] is
    [self.__class__.__name__]. *)
Definition evaluate_and_save (class_name : string) (self : EvaluatorBase)
    (now : string) (iterations : Z) (save_in : option string)
  : M save_state (list dict) :=
  (evaluation_results <- lift_engine (evaluate self now iterations) ;;
   match save_in with
   | None => ret evaluation_results
   | Some dir =>
       fun st =>
         let csv_path := results_path dir (name (persona (engine st))) class_name in
         (DataFrame_to_csv evaluation_results csv_path ;;;
          ret evaluation_results) st
   end)%monad.

(** [NielsenEvaluator.evaluate_and_save]: the call of the base method
    inside a [try] whose handler logs and raises again. *)
Definition NielsenEvaluator_evaluate_and_save (self : EvaluatorBase)
    (now : string) (iterations : Z) (save_in : option string)
  : M save_state (list dict) :=
  try_except (evaluate_and_save "NielsenEvaluator" self now iterations save_in)
             (fun e => raise e).

End Saving.

(** *** [WhisperTranscriber.defaultTranscriber] *)

Section Singleton.

(** [whisper.load_model(name)], with a state of its own that counts or
    consumes what the loader needs. *)
Variable Loader : Type.
Variable load_model : Loader -> string -> Loader * outcome WhisperTranscriber.

(** The class attribute [_default_instance] and the loader. *)
Record transcriber_class : Type := {
  _default_instance : option WhisperTranscriber;
  loader : Loader
}.

(** [WhisperTranscriber.defaultTranscriber] *)
Definition defaultTranscriber : M transcriber_class WhisperTranscriber :=
  fun c =>
    match _default_instance c with
    | Some t => (c, Return t)
    | None =>
        match load_model (loader c) "small" with
        | (l, Return t) => ({| _default_instance := Some t; loader := l |}, Return t)
        | (l, Raise e) => ({| _default_instance := None; loader := l |}, Raise e)
        end
    end.

End Singleton.

(** *** [LLMClient.__init__] and [LLMClientFactory] *)

Definition MODEL_CONFIGS : list (string * (string * string)) :=
  [("qwen", ("DEFAULT_MODEL", "qwen2.5vl:3b"));
   ("claude", ("CLAUDE_MODEL", "anthropic/claude-sonnet-4"));
   ("gemini", ("GEMINI_MODEL", "google/gemini-2.5-pro"));
   ("llama", ("LLAMA_MODEL", "meta-llama/llama-4-maverick:free"));
   ("openai", ("OPENAI_MODEL", "openai/gpt-5"))].

Fixpoint assoc_get {V : Type} (key : string) (d : list (string * V)) : option V :=
  match d with
  | [] => None
  | (k, v) :: rest => if String.eqb k key then Some v else assoc_get key rest
  end.

Fixpoint assoc_set {V : Type} (key : string) (v : V) (d : list (string * V))
  : list (string * V) :=
  match d with
  | [] => [(key, v)]
  | (k, w) :: rest =>
      if String.eqb k key then (k, v) :: rest
      else (k, w) :: assoc_set key v rest
  end.

(** [LLMClientFactory.get_available_models] *)
Definition get_available_models : list string := map fst MODEL_CONFIGS.

(** [str(l)] for a list of plain words. *)
Definition repr_words (l : list string) : string :=
  ("[" ++ String.concat ", " (map (fun w => "'" ++ w ++ "'")%string l) ++ "]")%string.

(** The attributes of an [LLMClient] object as [__init__] sets them. *)
Record LLMClientObject : Type := {
  client_base_url : string;
  client_api_key : value;
  client_model_name : value;
  client_temperature : value;
  client_stream : value
}.

Definition client_keywords : list string :=
  ["base_url"; "api_key"; "model_name"; "temperature"; "stream"].

Section Factory.

(** The process environment, the parser behind [float(text)], and the
    exception the constructor of the API client raises, if any. *)
Variable env : string -> option string.
Variable py_float : string -> outcome value.
Variable OpenAI : string -> value -> option exn.

(** [os.getenv(key, default)] *)
Definition os_getenv (key default : string) : string :=
  match env key with
  | Some v => v
  | None => default
  end.

(** [LLMClient.__init__] *)
Definition LLMClient__init__ (base_url api_key model_name temperature stream : value)
  : outcome LLMClientObject :=
  match base_url with
  | VStr url =>
      match OpenAI (rstrip_slash url) api_key with
      | Some e => Raise e
      | None =>
          Return {| client_base_url := rstrip_slash url;
                    client_api_key := api_key;
                    client_model_name := model_name;
                    client_temperature := temperature;
                    client_stream := stream |}
      end
  | _ => Raise (AttributeError "object has no attribute 'rstrip'")
  end.

(** [LLMClient] called with the items of [params] as keywords: a keyword
    that [__init__] does not have is a [TypeError], and so is a missing
    required one. *)
Definition call_LLMClient (params : dict) : outcome LLMClientObject :=
  if forallb (fun kv => existsb (String.eqb (fst kv)) client_keywords) params then
    match dict_get "base_url" params, dict_get "api_key" params,
          dict_get "model_name" params with
    | Some base_url, Some api_key, Some model_name =>
        LLMClient__init__ base_url api_key model_name
          (match dict_get "temperature" params with
           | Some t => t
           | None => VFloat "1.0"
           end)
          (match dict_get "stream" params with
           | Some b => b
           | None => VBool false
           end)
    | _, _, _ => Raise (TypeError "__init__() missing required positional argument")
    end
  else Raise (TypeError "__init__() got an unexpected keyword argument").

(** [LLMClientFactory.create_client] *)
Definition create_client (model_type : string) (kwargs : dict)
  : outcome LLMClientObject :=
  match assoc_get model_type MODEL_CONFIGS with
  | None =>
      Raise (ValueError ("Unsupported model type: " ++ model_type
                         ++ ". Supported types: " ++ repr_words get_available_models)%string)
  | Some (env_key, default_value) =>
      obind (py_float (os_getenv "MODEL_TEMPERATURE" "1.0")) (fun temperature =>
        let default_params :=
          [("base_url", VStr (os_getenv "BASE_URL" "https://openrouter.ai/api/v1"));
           ("api_key", match env "OPENAI_API_KEY" with
                       | Some k => VStr k
                       | None => VNone
                       end);
           ("model_name", VStr (os_getenv env_key default_value));
           ("temperature", temperature);
           ("stream", VBool (String.eqb (str_lower (os_getenv "MODEL_STREAM" "False"))
                                        "true"))] in
        call_LLMClient (dict_update default_params kwargs))
  end.

(** The loop of [LLMClientFactory.create_clients]. *)
Fixpoint create_clients_loop (model_types : list string)
    (clients : list (string * LLMClientObject)) : list (string * LLMClientObject) :=
  match model_types with
  | [] => clients
  | model_type :: rest =>
      match create_client model_type [] with
      | Return client => create_clients_loop rest (assoc_set model_type client clients)
      | Raise _ => create_clients_loop rest clients
      end
  end.

(** [LLMClientFactory.create_clients] *)
Definition create_clients (model_types : list string)
  : list (string * LLMClientObject) :=
  create_clients_loop model_types [].

End Factory.

(** Stub surroundings for concrete runs. *)
Definition demo_transcriber : WhisperTranscriber :=
  {| transcribe := fun _ => Return "spoken words" |}.

(** A loader that counts how often it is asked. *)
Definition counting_load (n : nat) (model_name : string)
  : nat * outcome WhisperTranscriber :=
  (S n, Return demo_transcriber).

Definition demo_env : string -> option string :=
  fun key =>
    if String.eqb key "CLAUDE_MODEL" then Some "anthropic/claude-opus"
    else if String.eqb key "BASE_URL" then Some "http://localhost:11434/v1//"
    else if String.eqb key "MODEL_STREAM" then Some "TRUE"
    else None.

Definition demo_float (text : string) : outcome value :=
  if String.eqb text "1.0" then Return (VFloat "1.0")
  else Raise (ValueError "could not convert string to float").

Definition demo_OpenAI (base_url : string) (api_key : value) : option exn := None.

(** * Properties *)

(** ** Worked examples of the leaf functions *)

Example b64_man : b64encode "Man" = "TWFu" /\ b64encode "Ma" = "TWE=" /\ b64encode "M" = "TQ==".
Proof. repeat split. Qed.

Example extract_prose : _extract_json example_prose = Return (py "{'q01': 5, 'q02': 3}").
Proof. reflexivity. Qed.

Example extract_nested : _extract_json example_nested = Return example_nested.
Proof. reflexivity. Qed.

Example decode_prose :
  Json.decode (py "{'q01': 5, 'q02': 3}") = Some (VDict [("q01", VInt 5); ("q02", VInt 3)]).
Proof. vm_compute. reflexivity. Qed.

Example decode_nested :
  Json.decode example_nested = Some (VDict [("a", VDict [("b", VInt 1)])]).
Proof. vm_compute. reflexivity. Qed.

Example decode_misc :
  Json.decode (py " {'a': [1, -2.5e3, true, null, 'x\nyA'], 'a': {}, 'b': 'q'} ")
  = Some (VDict [("a", VDict []); ("b", VStr "q")])
  /\ Json.decode (py "[1, -2.5e3, true, null, 'x\tyA', 01]") = None
  /\ Json.decode (py "[1, -2.5e3, true, null, 'x\tyA', 0, -0, 10]")
     = Some (VList [VInt 1; VFloat "-2.5e3"; VBool true; VNone;
                    VStr (String "x" (String (ascii_of_nat 9) "yA")); VInt 0; VInt 0; VInt 10])
  /\ Json.decode (py "{'a': '}") = None
  /\ Json.decode (py "{'a': '}'}") = Some (VDict [("a", VStr "}")])
  /\ Json.decode (py "{'a': 1,}") = None
  /\ Json.decode (py "{'a': 1} x") = None
  /\ Json.decode "{braces}" = None.
Proof. vm_compute. repeat split. Qed.

(** ** Strings and dictionaries *)

Lemma append_assoc (a b c : string) : ((a ++ b) ++ c = a ++ (b ++ c))%string.
Proof. induction a as [|x a IH]; simpl; [reflexivity | now rewrite IH]. Qed.

Lemma append_nil_r (a : string) : (a ++ EmptyString)%string = a.
Proof. induction a as [|x a IH]; simpl; [reflexivity | now rewrite IH]. Qed.

Lemma string_of_list_app (l1 l2 : list ascii) :
  string_of_list_ascii (l1 ++ l2) = (string_of_list_ascii l1 ++ string_of_list_ascii l2)%string.
Proof. induction l1 as [|x l1 IH]; simpl; [reflexivity | now rewrite IH]. Qed.

Lemma string_of_rev_cons (c : ascii) (taken : list ascii) (rest : string) :
  (string_of_list_ascii (rev (c :: taken)) ++ rest
   = string_of_list_ascii (rev taken) ++ String c rest)%string.
Proof. simpl. rewrite string_of_list_app, append_assoc. reflexivity. Qed.

Lemma length_string_of_list (l : list ascii) :
  String.length (string_of_list_ascii l) = List.length l.
Proof. induction l as [|x l IH]; simpl; [reflexivity | now rewrite IH]. Qed.

Lemma substring_prefix (a b : string) :
  substring 0 (String.length a) (a ++ b)%string = a.
Proof.
  induction a as [|x a IH]; simpl.
  - destruct b; reflexivity.
  - now rewrite IH.
Qed.

Lemma dict_get_setitem (key k : string) (v : value) (d : dict) :
  dict_get k (dict_setitem key v d)
  = if String.eqb key k then Some v else dict_get k d.
Proof.
  induction d as [|[k0 w] d IH]; simpl.
  - reflexivity.
  - destruct (String.eqb_spec k0 key) as [->|Hk0]; simpl.
    + destruct (String.eqb_spec key k); reflexivity.
    + destruct (String.eqb_spec k0 k) as [->|Hk].
      * destruct (String.eqb_spec key k) as [->|]; [congruence | reflexivity].
      * exact IH.
Qed.

(** A lookup in a merged dictionary: the merged-in dictionary answers for
    every key it has, whatever the key. *)
Lemma dict_get_update (k : string) (other d : dict) :
  dict_get k (dict_update d other)
  = match dict_get k (dict_update [] other) with
    | Some v => Some v
    | None => dict_get k d
    end.
Proof.
  unfold dict_update. revert d.
  induction other as [|[key v] other IH] using rev_ind; intros d; simpl.
  - reflexivity.
  - rewrite !fold_left_app. simpl. rewrite !dict_get_setitem.
    destruct (String.eqb key k); [reflexivity | apply IH].
Qed.

(** With distinct keys in [other] the merge reads [other] itself. *)
Lemma dict_update_nil_get (k : string) (other : dict) :
  NoDup (map fst other) -> dict_get k (dict_update [] other) = dict_get k other.
Proof.
  unfold dict_update.
  induction other as [|[key v] other IH] using rev_ind; intros Hnd; simpl.
  - reflexivity.
  - rewrite fold_left_app. simpl. rewrite dict_get_setitem.
    rewrite map_app in Hnd. simpl in Hnd.
    apply NoDup_remove in Hnd. rewrite app_nil_r in Hnd. destruct Hnd as [Hnd Hnin].
    rewrite IH by exact Hnd. clear IH.
    induction other as [|[k0 w] other IH']; simpl.
    + now rewrite String.eqb_sym.
    + simpl in Hnin. destruct (String.eqb_spec k0 k) as [->|Hk].
      * destruct (String.eqb_spec key k) as [->|]; [tauto | reflexivity].
      * apply IH'; [now inversion Hnd | tauto].
Qed.

(** ** Brace matching *)

Lemma re_search_brace_none (text : string) :
  re_search_brace text = None <-> no_open_brace text.
Proof.
  unfold no_open_brace. induction text as [|c text IH]; simpl.
  - split; [intros _ c [] | reflexivity].
  - destruct (is_open c) eqn:Hc.
    + split; [discriminate |].
      intros H. specialize (H c (or_introl eq_refl)). congruence.
    + rewrite IH. split.
      * intros H x [<-|Hx]; [exact Hc | now apply H].
      * intros H x Hx. apply H. now right.
Qed.

Lemma re_search_brace_some (text from_brace : string) :
  re_search_brace text = Some from_brace <->
  exists pre body, text = (pre ++ from_brace)%string /\ no_open_brace pre
                   /\ from_brace = String "{" body.
Proof.
  unfold no_open_brace. split.
  - revert from_brace. induction text as [|c text IH]; simpl; intros fb H.
    + discriminate.
    + destruct (is_open c) eqn:Hc.
      * injection H as <-. exists EmptyString, text. repeat split.
        -- intros x [].
        -- unfold is_open in Hc. apply Ascii.eqb_eq in Hc. now subst.
      * destruct (IH _ H) as (pre & body & -> & Hpre & ->).
        exists (String c pre), body. repeat split.
        intros x [<-|Hx]; [exact Hc | now apply Hpre].
  - intros (pre & body & -> & Hpre & ->).
    induction pre as [|c pre IH]; simpl.
    + reflexivity.
    + rewrite (Hpre c (or_introl eq_refl)). apply IH.
      intros x Hx. apply Hpre. now right.
Qed.

Lemma removelast_nil_length (stack : list nat) :
  stack <> [] -> (removelast stack = [] <-> List.length stack = 1%nat).
Proof.
  destruct stack as [|a [|b stack]]; simpl; intros H; split; intros H';
    try congruence.
Qed.

Lemma removelast_length (stack : list nat) :
  stack <> [] -> S (List.length (removelast stack)) = List.length stack.
Proof.
  intros H. pose proof (app_removelast_last 0%nat H) as E.
  apply (f_equal (@List.length nat)) in E. rewrite length_app in E. simpl in E. lia.
Qed.

(** The stack of the source and the counter of the specification run in
    step: the counter is the height of the stack. *)
Lemma scan_stack_depth (chars json_part : string) (taken : list ascii) (stack : list nat) :
  json_part = (string_of_list_ascii (rev taken) ++ chars)%string ->
  stack <> [] ->
  scan_stack json_part chars (List.length taken) stack
  = match scan_depth chars (Z.of_nat (List.length stack)) taken with
    | Some candidate => Return candidate
    | None => Raise (ValueError "Could not extract complete JSON object")
    end.
Proof.
  revert taken stack.
  induction chars as [|c rest IH]; intros taken stack Hjp Hne; simpl.
  - reflexivity.
  - assert (Hlen : (1 <= List.length stack)%nat)
      by (destruct stack; [congruence | simpl; lia]).
    change (S (List.length taken)) with (List.length (c :: taken)).
    destruct (is_open c) eqn:Ho; cbn [orb andb].
    + replace (Z.of_nat (List.length stack) + 1 =? 0)%Z with false
        by (symmetry; apply Z.eqb_neq; lia).
      rewrite (IH (c :: taken) (stack ++ [List.length taken])).
      * rewrite length_app. simpl List.length.
        replace (Z.of_nat (List.length stack + 1)) with (Z.of_nat (List.length stack) + 1)%Z
          by lia.
        reflexivity.
      * now rewrite string_of_rev_cons.
      * now destruct stack.
    + destruct (is_close c) eqn:Hc; cbn [orb andb].
      * unfold list_pop. destruct stack as [|a stack]; [congruence |].
        remember (a :: stack) as st eqn:Hst.
        destruct (removelast st) as [|b st'] eqn:Hrl.
        -- apply removelast_nil_length in Hrl; [| exact Hne].
           rewrite Hrl. simpl.
           unfold slice_to. rewrite Hjp, <- string_of_rev_cons.
           replace (List.length taken + 1)%nat
             with (String.length (string_of_list_ascii (rev (c :: taken)))).
           ++ now rewrite substring_prefix.
           ++ rewrite length_string_of_list, length_rev. simpl. lia.
        -- pose proof (removelast_length st Hne) as Hl. rewrite Hrl in Hl.
           replace (Z.of_nat (List.length st) - 1 =? 0)%Z with false
             by (symmetry; apply Z.eqb_neq; simpl in Hl; lia).
           rewrite (IH (c :: taken) (b :: st')).
           ++ replace (Z.of_nat (List.length (b :: st')))
                with (Z.of_nat (List.length st) - 1)%Z by lia.
              reflexivity.
           ++ now rewrite string_of_rev_cons.
           ++ discriminate.
      * rewrite (IH (c :: taken) stack); [reflexivity | | exact Hne].
        now rewrite string_of_rev_cons.
Qed.

(** The source's extraction is the specification's depth-counting scan. *)
Lemma extract_json_by_depth (text : string) : _extract_json text = extract_by_depth text.
Proof.
  unfold _extract_json, extract_by_depth.
  destruct (re_search_brace text) as [fb|] eqn:Hs; [| reflexivity].
  apply re_search_brace_some in Hs. destruct Hs as (pre & body & _ & _ & ->).
  simpl. change (is_open "{") with true. simpl.
  apply (scan_stack_depth body (String "{" body) ["{"%char] [0%nat]);
    [reflexivity | discriminate].
Qed.

Lemma scan_depth_sound (chars : string) (d : Z) (taken : list ascii) (candidate : string) :
  (0 < d)%Z ->
  scan_depth chars d taken = Some candidate ->
  exists seg post,
    chars = (seg ++ post)%string
    /\ candidate = (string_of_list_ascii (rev taken) ++ seg)%string
    /\ (d + brace_depth seg = 0)%Z
    /\ forall p q, seg = (p ++ q)%string -> q <> EmptyString -> (0 < d + brace_depth p)%Z.
Proof.
  revert d taken.
  induction chars as [|c rest IH]; intros d taken Hd H; simpl in H; [discriminate |].
  set (d' := if is_open c then (d + 1)%Z else if is_close c then (d - 1)%Z else d) in H.
  assert (Hd' : d' = (d + brace_delta c)%Z).
  { unfold d', brace_delta. destruct (is_open c), (is_close c); lia. }
  destruct ((is_open c || is_close c) && (d' =? 0)%Z) eqn:Ht.
  - injection H as <-.
    apply andb_prop in Ht. destruct Ht as [_ Hz]. apply Z.eqb_eq in Hz.
    exists (String c EmptyString), rest. split; [| split; [| split]].
    + reflexivity.
    + now rewrite <- string_of_rev_cons, append_nil_r.
    + simpl. lia.
    + intros p q Hpq Hq. destruct p as [|x p]; simpl in *; [lia |].
      injection Hpq as _ Hpq. destruct p; simpl in Hpq; [congruence | discriminate].
  - assert (Hpos : (0 < d')%Z).
    { apply andb_false_iff in Ht. unfold brace_delta in Hd'.
      destruct (is_open c), (is_close c); simpl in Ht;
        destruct Ht as [Ht|Ht]; try discriminate; try apply Z.eqb_neq in Ht; lia. }
    destruct (IH d' (c :: taken) Hpos H) as (seg & post & -> & -> & Hz & Hpre).
    exists (String c seg), post. split; [| split; [| split]].
    + reflexivity.
    + now rewrite string_of_rev_cons.
    + simpl. lia.
    + intros p q Hpq Hq. destruct p as [|x p]; simpl in *; [lia |].
      injection Hpq as <- Hpq. specialize (Hpre p q Hpq Hq). lia.
Qed.

Lemma scan_depth_complete (seg post : string) (d : Z) (taken : list ascii) :
  (0 < d)%Z ->
  (d + brace_depth seg = 0)%Z ->
  (forall p q, seg = (p ++ q)%string -> q <> EmptyString -> (0 < d + brace_depth p)%Z) ->
  scan_depth (seg ++ post)%string d taken
  = Some (string_of_list_ascii (rev taken) ++ seg)%string.
Proof.
  revert d taken.
  induction seg as [|c seg IH]; intros d taken Hd Hz Hpre; simpl in *; [lia |].
  set (d' := if is_open c then (d + 1)%Z else if is_close c then (d - 1)%Z else d).
  assert (Hd' : d' = (d + brace_delta c)%Z).
  { unfold d', brace_delta. destruct (is_open c), (is_close c); lia. }
  destruct seg as [|c2 seg].
  - simpl in *. assert (Hz' : d' = 0%Z) by lia.
    assert (Hb : is_open c || is_close c = true).
    { unfold brace_delta in Hd'. destruct (is_open c), (is_close c); simpl; try reflexivity; lia. }
    rewrite Hb, Hz'. simpl. now rewrite string_of_list_app.
  - assert (Hpos : (0 < d')%Z).
    { specialize (Hpre (String c EmptyString) (String c2 seg) eq_refl).
      simpl in Hpre. rewrite Hd'. assert (String c2 seg <> EmptyString) by discriminate.
      specialize (Hpre H). lia. }
    replace ((is_open c || is_close c) && (d' =? 0)%Z) with false.
    2:{ symmetry. apply andb_false_iff. right. apply Z.eqb_neq. lia. }
    rewrite (IH d' (c :: taken) Hpos).
    + now rewrite string_of_rev_cons.
    + lia.
    + intros p q Hpq Hq.
      specialize (Hpre (String c p) q). simpl in Hpre. rewrite Hpq in Hpre.
      specialize (Hpre eq_refl Hq). lia.
Qed.

Lemma brace_depth_open (body : string) :
  brace_depth (String "{" body) = (1 + brace_depth body)%Z.
Proof. reflexivity. Qed.

(** What the extraction returns: the part of the text that begins at its
    first opening brace and ends at the closing brace where the depth is
    back at zero for the first time; and it returns it whenever the text
    has such a part. *)
Lemma extract_json_matched (text candidate : string) :
  _extract_json text = Return candidate <->
  exists pre post,
    text = (pre ++ candidate ++ post)%string
    /\ no_open_brace pre
    /\ matched_object candidate.
Proof.
  rewrite extract_json_by_depth. unfold extract_by_depth, matched_object. split.
  - destruct (re_search_brace text) as [fb|] eqn:Hs; [| discriminate].
    apply re_search_brace_some in Hs. destruct Hs as (pre & body & -> & Hpre & ->).
    cbn [scan_depth]. change (is_open "{") with true. cbn [orb andb Z.add Z.eqb].
    destruct (scan_depth body 1 ["{"%char]) as [cand|] eqn:Hd; [| discriminate].
    intros H. injection H as <-.
    apply scan_depth_sound in Hd; [| lia].
    destruct Hd as (seg & post & -> & -> & Hz & Hp).
    exists pre, post.
    split; [reflexivity |]. split; [exact Hpre |]. split; [| split].
    + exists seg. reflexivity.
    + change (string_of_list_ascii (rev ["{"%char]) ++ seg)%string with (String "{" seg).
      rewrite brace_depth_open. exact Hz.
    + intros p q Hpq Hpne Hq. destruct p as [|x p]; [congruence |].
      cbn [append] in Hpq. change (string_of_list_ascii (rev ["{"%char]) ++ seg)%string
        with (String "{" seg) in Hpq.
      injection Hpq as <- Hpq. rewrite brace_depth_open. exact (Hp p q Hpq Hq).
  - intros (pre & post & -> & Hpre & (body & ->) & Hz & Hp).
    assert (Hs : re_search_brace (pre ++ String "{" body ++ post)
                 = Some (String "{" (body ++ post))%string).
    { apply re_search_brace_some. exists pre, (body ++ post)%string.
      split; [reflexivity |]. split; [exact Hpre | reflexivity]. }
    rewrite Hs. cbn [scan_depth]. change (is_open "{") with true.
    cbn [orb andb Z.add Z.eqb].
    rewrite brace_depth_open in Hz.
    rewrite (scan_depth_complete body post 1 ["{"%char]); [reflexivity | lia | lia |].
    intros p q Hpq Hq.
    specialize (Hp (String "{" p) q). rewrite brace_depth_open in Hp.
    apply Hp; [cbn [append]; now rewrite Hpq | discriminate | exact Hq].
Qed.

(** ** The persona *)

Section PersonaFacts.

Context {W : Collaborators}.

Lemma send_user_turn_eq (processed_messages : list value) (s : state) :
  send_user_turn processed_messages s
  = let h := message_history (persona s) ++ [user_turn processed_messages] in
    match llm_invoke (remote s) h with
    | (b, Return response) => (after_answer s h b response, Return response)
    | (b, Raise e) => (after_failure s h b, Raise e)
    end.
Proof.
  unfold send_user_turn, bind, history_append, llm_client_invoke, ret,
    after_answer, after_failure, set_persona. cbn.
  destruct (llm_invoke (remote s) (message_history (persona s) ++ [user_turn processed_messages]))
    as [b [response|e]]; reflexivity.
Qed.

Lemma interact_eq (messages : value) (s : state) :
  interact messages s
  = match process_messages (persona s) (as_list messages) [] with
    | Return processed_messages => send_user_turn processed_messages s
    | Raise e => (s, Raise e)
    end.
Proof.
  unfold interact, bind, lift.
  destruct (process_messages (persona s) (as_list messages) []); reflexivity.
Qed.

(** Case analysis on the head message of the normalisation loop. *)
Ltac step_message IH :=
  match goal with
  | |- context [match ?m with VNone => _ | _ => _ end] =>
      destruct m as [| | | | | ? | ?d]; try apply IH
  end;
  match goal with
  | |- context [eq_str (dict_get "type" ?d) "text"] =>
      destruct (eq_str (dict_get "type" d) "text"); [apply IH |];
      destruct (eq_str (dict_get "type" d) "image");
      [ destruct (dict_getitem "path" d) as [?image_path|]; [| reflexivity]
      | destruct (eq_str (dict_get "type" d) "audio"); [| apply IH];
        destruct (dict_getitem "path" d) as [?audio_path|]; [| reflexivity] ]
  end.

Lemma process_messages_app (self : ActivePersona) (l1 l2 acc : list value) :
  process_messages self (l1 ++ l2) acc
  = obind (process_messages self l1 acc) (process_messages self l2).
Proof.
  revert acc. induction l1 as [|m l1 IH]; intros acc; simpl; [reflexivity |].
  step_message IH.
  - destruct (read_image image_path); [apply IH | reflexivity].
  - destruct (self_transcribe self audio_path); [apply IH | reflexivity].
Qed.

(** Normalisation reads the persona only for its transcriber. *)
Lemma process_messages_ext (p q : ActivePersona) (l acc : list value) :
  whisper_transcriber p = whisper_transcriber q ->
  process_messages p l acc = process_messages q l acc.
Proof.
  intros H. revert acc. induction l as [|m l IH]; intros acc; simpl; [reflexivity |].
  step_message IH.
  - destruct (read_image image_path); [apply IH | reflexivity].
  - unfold self_transcribe. rewrite H.
    destruct (whisper_transcriber q) as [t|]; [| reflexivity].
    destruct (transcribe t audio_path); [apply IH | reflexivity].
Qed.

Lemma process_messages_unrecognized (self : ActivePersona) (m : value)
    (rest acc : list value) :
  recognized m = false ->
  process_messages self (m :: rest) acc = process_messages self rest acc.
Proof.
  intros H. simpl. destruct m as [| | | | s | l | d]; try reflexivity.
  - discriminate.
  - simpl in H. apply orb_false_iff in H. destruct H as [H Ha].
    apply orb_false_iff in H. destruct H as [Ht Hi].
    now rewrite Ht, Hi, Ha.
Qed.

Lemma process_messages_all_unrecognized (self : ActivePersona) (l acc : list value) :
  Forall (fun m => recognized m = false) l ->
  process_messages self l acc = Return acc.
Proof.
  induction 1 as [|m l Hm _ IH]; [reflexivity |].
  now rewrite process_messages_unrecognized.
Qed.

(** An image part whose file is missing stops the normalisation. *)
Lemma process_messages_missing_image (self : ActivePersona) (d : dict) (path : string)
    (rest acc : list value) :
  eq_str (dict_get "type" d) "image" = true ->
  dict_get "path" d = Some (VStr path) ->
  fs path = Missing ->
  process_messages self (VDict d :: rest) acc = Raise (FileNotFoundError path).
Proof.
  intros Ht Hp Hm. simpl.
  assert (Hx : eq_str (dict_get "type" d) "text" = false).
  { destruct (dict_get "type" d) as [[| | | | t | |]|]; try discriminate.
    simpl in *. apply String.eqb_eq in Ht. now subst. }
  rewrite Hx, Ht. unfold dict_getitem. rewrite Hp. simpl.
  unfold open_rb_read. now rewrite Hm.
Qed.

End PersonaFacts.

(** ** The runner *)

Section RunnerFacts.

Context {W : Collaborators}.

Lemma for_each_invariant {S X A : Type} (I : nat -> S -> A -> Prop)
    (body : X -> A -> M S A) :
  (forall k x a s, I k s a ->
     exists s' a', body x a s = (s', Return a') /\ I (Datatypes.S k) s' a') ->
  forall xs k a s, I k s a ->
    exists s' a', for_each xs body a s = (s', Return a') /\ I (k + List.length xs)%nat s' a'.
Proof.
  intros Hbody xs. induction xs as [|x xs IH]; intros k a s HI; simpl.
  - exists s, a. split; [reflexivity |]. now rewrite Nat.add_0_r.
  - destruct (Hbody k x a s HI) as (s1 & a1 & Hb & HI1).
    unfold bind. rewrite Hb.
    destruct (IH (Datatypes.S k) a1 s1 HI1) as (s2 & a2 & Hf & HI2).
    exists s2, a2. split; [exact Hf |].
    now replace (k + Datatypes.S (List.length xs))%nat
      with (Datatypes.S k + List.length xs)%nat by lia.
Qed.

Lemma length_py_range (lo hi : Z) : List.length (py_range lo hi) = Z.to_nat (hi - lo).
Proof. unfold py_range. now rewrite length_map, length_seq. Qed.

(** One iteration, case by case: the trial never raises, and it adds a
    record exactly when [interact] returns a response from which an
    entry can be made. *)
Lemma trial_eq (self : EvaluatorBase) (messages : list value) (template : dict)
    (iteration : Z) (results : list dict) (s : state) :
  trial self messages template iteration results s
  = match interact (VList messages) (before_trial self s) with
    | (s1, Return response) => (s1, Return (results_after self template results response))
    | (s1, Raise _) => (s1, Return results)
    end.
Proof.
  unfold trial, try_except, trial_body, bind, before_trial, results_after.
  destruct (auto_reset self); cbn [do_reset_history ret].
  - destruct (interact (VList messages) (set_persona s (reset_history (persona s))))
      as [s1 [response|e]]; [| reflexivity].
    unfold lift, ret. destruct (entry_of_response self template response); reflexivity.
  - destruct (interact (VList messages) s) as [s1 [response|e]]; [| reflexivity].
    unfold lift, ret. destruct (entry_of_response self template response); reflexivity.
Qed.

Lemma same_identity_transcriber (p q : ActivePersona) :
  same_identity p q -> whisper_transcriber p = whisper_transcriber q.
Proof. intros H. exact (f_equal whisper_transcriber H). Qed.

Lemma same_identity_system_turn (p q : ActivePersona) :
  same_identity p q -> system_turn p = system_turn q.
Proof.
  intros H. unfold system_turn.
  now rewrite (f_equal system_prompt H : system_prompt p = system_prompt q).
Qed.

(** What [interact] does to the state: the identity of the persona
    stays, the history grows by nothing (normalisation failed), by the
    user turn (backend failed) or by the user and the assistant turn, and
    a request went out in the last two cases. *)
Lemma interact_cases (messages : value) (s s1 : state) (r : outcome string) :
  interact messages s = (s1, r) ->
  (s1 = s /\ exists e, r = Raise e
          /\ process_messages (persona s) (as_list messages) [] = Raise e)
  \/ (exists pm b,
        process_messages (persona s) (as_list messages) [] = Return pm
        /\ let h := message_history (persona s) ++ [user_turn pm] in
           (exists e, r = Raise e /\ llm_invoke (remote s) h = (b, Raise e)
                      /\ s1 = after_failure s h b)
           \/ (exists response, r = Return response
                 /\ llm_invoke (remote s) h = (b, Return response)
                 /\ s1 = after_answer s h b response)).
Proof.
  rewrite interact_eq.
  destruct (process_messages (persona s) (as_list messages) []) as [pm|e] eqn:Hp.
  - rewrite send_user_turn_eq. cbv zeta.
    destruct (llm_invoke (remote s) (message_history (persona s) ++ [user_turn pm]))
      as [b [response|e]] eqn:Hi; intros H; injection H as <- <-; right; exists pm, b;
      (split; [reflexivity |]); cbv zeta.
    + right. exists response. now rewrite Hi.
    + left. exists e. now rewrite Hi.
  - intros H. injection H as <- <-. left. split; [reflexivity |]. now exists e.
Qed.

(** A request, when [interact] sends one, is the history it found plus
    the user turn. *)
Lemma interact_request (messages : value) (s : state) :
  requests (fst (interact messages s)) = requests s
  \/ exists h,
       requests (fst (interact messages s)) = requests s ++ [h]
       /\ before_append h = message_history (persona s).
Proof.
  destruct (interact messages s) as [s1 r] eqn:Hi. apply interact_cases in Hi.
  destruct Hi as [(-> & _)|(pm & b & _ & [(e & _ & _ & ->)|(response & _ & _ & ->)])].
  - now left.
  - right. eexists. split; [reflexivity |]. apply removelast_last.
  - right. eexists. split; [reflexivity |]. apply removelast_last.
Qed.

Lemma add_images_normalise (self : EvaluatorBase) (p : ActivePersona)
    (paths : list string) (messages pm0 : list value) :
  (forall path, In path paths -> fs path <> Directory) ->
  process_messages p messages [] = Return pm0 ->
  exists pm, process_messages p (add_images paths messages) [] = Return pm.
Proof.
  revert messages pm0.
  induction paths as [|path paths IH]; intros messages pm0 Hr Hm; simpl.
  - now exists pm0.
  - assert (Hr' : forall q, In q paths -> fs q <> Directory)
      by (intros q Hq; apply Hr; now right).
    unfold os_path_exists.
    destruct (fs path) as [| |data] eqn:Hf.
    + exact (IH messages pm0 Hr' Hm).
    + exfalso. exact (Hr path (or_introl eq_refl) Hf).
    + apply (IH _ (pm0 ++ [image_url_part (b64encode data)]) Hr').
      rewrite process_messages_app, Hm. simpl.
      unfold open_rb_read. now rewrite Hf.
Qed.

(** The prompt of a runner whose images can be read normalises. *)
Lemma prepared_messages_normalise (self : EvaluatorBase) (p : ActivePersona) :
  images_readable self ->
  exists pm, process_messages p (_prepare_evaluation_messages self) [] = Return pm.
Proof.
  intros Hr. unfold _prepare_evaluation_messages.
  apply (add_images_normalise self p _ _ [text_part (evaluation_prompt self)] Hr).
  reflexivity.
Qed.

Lemma evaluate_eq (self : EvaluatorBase) (now : string) (iterations : Z) (s : state) :
  evaluate self now iterations s
  = for_each (py_range 1 (Z.max iterations 1 + 1))
      (trial self (_prepare_evaluation_messages self) (entry_template now (persona s)))
      [] s.
Proof.
  unfold evaluate. destruct (Z.ltb_spec iterations 1) as [H|H].
  - now replace (Z.max iterations 1) with 1%Z by lia.
  - now replace (Z.max iterations 1) with iterations by lia.
Qed.

End RunnerFacts.

(** ** Claims about extraction *)

(** C7. JSON extraction returns the part of the raw text that runs from
    its first opening brace through the matching closing brace found by
    counting depth: the source's stack scan equals the depth-counting scan
    of the specification, its results are exactly the brace-matched parts
    that start at the first opening brace, the answer in prose extracts
    to the object with q01 = 5 and q02 = 3, and the nested text extracts
    whole, inner object included. *)
Theorem C7_extract_json_matching_brace :
  (forall text, _extract_json text = extract_by_depth text)
  /\ (forall text candidate,
        _extract_json text = Return candidate <->
        exists pre post,
          text = (pre ++ candidate ++ post)%string
          /\ no_open_brace pre /\ matched_object candidate)
  /\ _extract_json example_prose = Return (py "{'q01': 5, 'q02': 3}")
  /\ obind (_extract_json example_prose) (json_loads (W := scripted empty_fs Json.decode))
     = Return (VDict [("q01", VInt 5); ("q02", VInt 3)])
  /\ _extract_json example_nested = Return example_nested
  /\ obind (_extract_json example_nested) (json_loads (W := scripted empty_fs Json.decode))
     = Return (VDict [("a", VDict [("b", VInt 1)])]).
Proof.
  split; [exact extract_json_by_depth |].
  split; [exact extract_json_matched |].
  repeat split; vm_compute; reflexivity.
Qed.

(** C8. A raw text with no opening brace makes the extraction raise the
    "no JSON object found" error, and that error is not the one raised
    when a located candidate fails to decode. *)
Theorem C8_no_brace_raises_no_json_found {W : Collaborators} (text : string) :
  no_open_brace text ->
  _extract_json text = Raise (ValueError "No JSON object found in text")
  /\ (forall doc e, json_loads doc = Raise e ->
        e = JSONDecodeError doc
        /\ e <> ValueError "No JSON object found in text").
Proof.
  intros H. split.
  - unfold _extract_json. apply re_search_brace_none in H. now rewrite H.
  - intros doc e. unfold json_loads. destruct (json_decode doc); [discriminate |].
    intros E. injection E as <-. split; [reflexivity | discriminate].
Qed.

Lemma C8_witness :
  no_open_brace "I cannot answer this."
  /\ _extract_json "I cannot answer this."
     = Raise (ValueError "No JSON object found in text").
Proof.
  assert (H : no_open_brace "I cannot answer this.").
  { intros c Hc. simpl in Hc.
    repeat (destruct Hc as [<-|Hc]; [reflexivity |]). contradiction. }
  split; [exact H |].
  exact (proj1 (C8_no_brace_raises_no_json_found (W := scripted empty_fs Json.decode)
                  "I cannot answer this." H)).
Defined.

(** ** Claims about the persona *)

Section PersonaClaims.

Context {W : Collaborators}.

(** C10. A part that is neither a string nor a dict tagged text, image or
    audio is left out of the user turn without an error; a call whose
    parts are all of that kind still appends a user turn with an empty
    content list and still calls the backend with it. *)
Theorem C10_unrecognized_parts_omitted (s : state) (pre post : list value)
    (m messages : value) :
  recognized m = false ->
  Forall (fun x => recognized x = false) (as_list messages) ->
  (forall acc, process_messages (persona s) (pre ++ m :: post) acc
               = process_messages (persona s) (pre ++ post) acc)
  /\ interact (VList (pre ++ m :: post)) s = interact (VList (pre ++ post)) s
  /\ interact messages s
     = let h := message_history (persona s) ++ [user_turn []] in
       match llm_invoke (remote s) h with
       | (b, Return response) => (after_answer s h b response, Return response)
       | (b, Raise e) => (after_failure s h b, Raise e)
       end.
Proof.
  intros Hm Hall.
  assert (Happ : forall acc, process_messages (persona s) (pre ++ m :: post) acc
                             = process_messages (persona s) (pre ++ post) acc).
  { intros acc. rewrite !process_messages_app.
    destruct (process_messages (persona s) pre acc) as [acc'|e]; simpl; [| reflexivity].
    now apply process_messages_unrecognized. }
  split; [exact Happ |]. split.
  - rewrite !interact_eq. cbn [as_list]. now rewrite Happ.
  - rewrite interact_eq, (process_messages_all_unrecognized _ _ _ Hall).
    apply send_user_turn_eq.
Qed.

(** C6. When the backend call inside [interact] raises, the same
    exception comes out of [interact] after that single call; the history
    has the new user turn and no assistant turn; and the next [interact]
    sends a conversation that still holds the unanswered user turn. *)
Theorem C6_backend_failure_keeps_user_turn (s : state) (messages : value)
    (pm : list value) (b : Backend) (e : exn) :
  process_messages (persona s) (as_list messages) [] = Return pm ->
  llm_invoke (remote s) (message_history (persona s) ++ [user_turn pm]) = (b, Raise e) ->
  let h := message_history (persona s) ++ [user_turn pm] in
  let s1 := after_failure s h b in
  interact messages s = (s1, Raise e)
  /\ message_history (persona s1) = message_history (persona s) ++ [user_turn pm]
  /\ requests s1 = requests s ++ [h]
  /\ forall messages2 pm2,
       process_messages (persona s1) (as_list messages2) [] = Return pm2 ->
       requests (fst (interact messages2 s1))
       = requests s ++ [h; h ++ [user_turn pm2]].
Proof.
  intros Hp Hi h s1.
  split; [| split; [reflexivity | split; [reflexivity |]]].
  - rewrite interact_eq, Hp, send_user_turn_eq. cbv zeta. now rewrite Hi.
  - intros messages2 pm2 Hp2.
    rewrite interact_eq, Hp2, send_user_turn_eq. cbv zeta.
    change (message_history (persona s1)) with h.
    destruct (llm_invoke (remote s1) (h ++ [user_turn pm2])) as [b2 [r|e2]];
      cbn; now rewrite <- app_assoc.
Qed.

(** C5, as the code has it.  A parts list that holds an image part whose
    file is absent makes [interact] raise and leaves the whole state as it
    was: nothing is appended to the history and the backend is not
    called.  The exception is the file-not-found error of that image
    whenever the parts before it normalise without error; otherwise it is
    the very exception that normalising the parts before it raises. *)
Theorem C5_missing_image_leaves_state (s : state) (pre post : list value)
    (d : dict) (path : string) :
  absent_image d path ->
  (exists e, interact (VList (pre ++ VDict d :: post)) s = (s, Raise e))
  /\ (forall ok, process_messages (persona s) pre [] = Return ok ->
        interact (VList (pre ++ VDict d :: post)) s = (s, Raise (FileNotFoundError path)))
  /\ (forall e, process_messages (persona s) pre [] = Raise e ->
        interact (VList (pre ++ VDict d :: post)) s = (s, Raise e)).
Proof.
  intros (Ht & Hp & Hm).
  assert (Hint : interact (VList (pre ++ VDict d :: post)) s
                 = match process_messages (persona s) pre [] with
                   | Return _ => (s, Raise (FileNotFoundError path))
                   | Raise e => (s, Raise e)
                   end).
  { rewrite interact_eq. cbn [as_list]. rewrite process_messages_app.
    destruct (process_messages (persona s) pre []) as [ok|e]; cbn [obind]; [| reflexivity].
    now rewrite (process_messages_missing_image _ d path post ok Ht Hp Hm). }
  split; [| split].
  - rewrite Hint. destruct (process_messages (persona s) pre []) as [ok|e]; eauto.
  - intros ok Hok. now rewrite Hint, Hok.
  - intros e He. now rewrite Hint, He.
Qed.

(** C2, at the failing input.  A persona as [__init__] builds it has no
    transcriber attribute, so a call of [interact] with an audio part
    raises the attribute error before any transcription and leaves the
    state as it was. *)
Theorem C2_audio_part_raises_attribute_error (name : string) (client : LLMClient)
    (prompt : option string) (b : Backend) (path : string) :
  let s := init_state (ActivePersona__init__ name client prompt) b in
  interact (VList [audio_part path]) s
  = (s, Raise (AttributeError
                 "'ActivePersona' object has no attribute 'whisper_transcriber'")).
Proof. reflexivity. Qed.

End PersonaClaims.

(** ** Claims about the runner *)

Section RunnerClaims.

Context {W : Collaborators}.

(** A trial changes the persona in its history only. *)
Lemma trial_identity (self : EvaluatorBase) (messages : list value) (template : dict)
    (iteration : Z) (results : list dict) (s : state) :
  same_identity (persona (fst (trial self messages template iteration results s)))
                (persona s).
Proof.
  rewrite trial_eq.
  assert (H0 : same_identity (persona (before_trial self s)) (persona s)).
  { unfold before_trial. destruct (auto_reset self); reflexivity. }
  destruct (interact (VList messages) (before_trial self s)) as [s1 r] eqn:Hi.
  apply interact_cases in Hi.
  destruct Hi as [(-> & _)|(pm & b & _ & [(e & -> & _ & ->)|(response & -> & _ & ->)])];
    try destruct r; exact H0.
Qed.

(** Under [auto_reset] every request of a trial is the system turn
    followed by the user turn just appended. *)
Lemma trial_requests_reset (self : EvaluatorBase) (messages : list value)
    (template : dict) (iteration : Z) (results : list dict) (s : state) :
  auto_reset self = true ->
  exists new,
    requests (fst (trial self messages template iteration results s)) = requests s ++ new
    /\ Forall (fun h => before_append h = [system_turn (persona s)]) new.
Proof.
  intros Ha. rewrite trial_eq. unfold before_trial. rewrite Ha.
  set (s0 := set_persona s (reset_history (persona s))).
  destruct (interact (VList messages) s0) as [s1 r] eqn:Hi.
  apply interact_cases in Hi.
  destruct Hi as [(-> & e & -> & _)|(pm & b & _ & [(e & -> & _ & ->)|(response & -> & _ & ->)])].
  - exists []. cbn. now rewrite app_nil_r.
  - exists [[system_turn (persona s); user_turn pm]]. cbn. split; [reflexivity |].
    constructor; [reflexivity | constructor].
  - exists [[system_turn (persona s); user_turn pm]]. cbn. split; [reflexivity |].
    constructor; [reflexivity | constructor].
Qed.

(** Without [auto_reset] the history never shrinks in a trial, and it
    grows by two with each record. *)
Lemma trial_growth_no_reset (self : EvaluatorBase) (messages : list value)
    (template : dict) (iteration : Z) (results : list dict) (s : state) :
  auto_reset self = false ->
  let out := trial self messages template iteration results s in
  exists results',
    snd out = Return results'
    /\ (List.length (message_history (persona (fst out)))
        >= List.length (message_history (persona s))
           + 2 * (List.length results' - List.length results))%nat
    /\ (List.length results <= List.length results')%nat.
Proof.
  intros Ha. cbv zeta. rewrite trial_eq. unfold before_trial. rewrite Ha.
  destruct (interact (VList messages) s) as [s1 r] eqn:Hi.
  apply interact_cases in Hi.
  destruct Hi as [(-> & e & -> & _)|(pm & b & _ & [(e & -> & _ & ->)|(response & -> & _ & ->)])].
  - exists results. cbn. repeat split; lia.
  - exists results. cbn. rewrite length_app. repeat split; lia.
  - exists (results_after self template results response). cbn.
    rewrite !length_app. cbn. unfold results_after.
    destruct (entry_of_response self template response);
      rewrite ?length_app; cbn; repeat split; lia.
Qed.

Lemma trial_body_success (self : EvaluatorBase) (messages : list value)
    (template : dict) (results results' : list dict) (s s' : state) :
  trial_body self messages template results s = (s', Return results') ->
  exists pm b response,
    let s0 := before_trial self s in
    let h := message_history (persona s0) ++ [user_turn pm] in
    process_messages (persona s0) messages [] = Return pm
    /\ llm_invoke (remote s0) h = (b, Return response)
    /\ s' = after_answer s0 h b response
    /\ exists entry, entry_of_response self template response = Return entry
                     /\ results' = results ++ [entry].
Proof.
  unfold trial_body, bind.
  assert (E : (if auto_reset self then do_reset_history else ret tt) s
              = (before_trial self s, Return tt)).
  { unfold before_trial. destruct (auto_reset self); reflexivity. }
  rewrite E.
  destruct (interact (VList messages) (before_trial self s)) as [s1 r] eqn:Hi.
  apply interact_cases in Hi.
  destruct Hi as [(-> & e & -> & _)|(pm & b & Hp & [(e & -> & _ & ->)|(response & -> & Hl & ->)])];
    try discriminate.
  unfold lift, ret.
  destruct (entry_of_response self template response) as [entry|e] eqn:He; [| discriminate].
  intros H. injection H as <- <-.
  exists pm, b, response. cbv zeta. repeat split; try assumption.
  exists entry. split; [exact He | reflexivity].
Qed.

(** C9. With [auto_reset] on, every conversation that [evaluate] sends
    out was, right before its user turn was appended, the single system
    turn of the persona: length exactly 1.  With [auto_reset] off, a
    trial that succeeds leaves the history two turns longer (the user
    turn and the assistant turn), so over a call the history grows by at
    least two per record. *)
Theorem C9_auto_reset_history_length (self : EvaluatorBase) (now : string)
    (iterations : Z) (s : state) :
  (auto_reset self = true ->
     exists s' records new,
       evaluate self now iterations s = (s', Return records)
       /\ requests s' = requests s ++ new
       /\ Forall (fun h => before_append h = [system_turn (persona s)]
                           /\ List.length (before_append h) = 1%nat) new)
  /\ (auto_reset self = false ->
        (forall messages template results results' st st',
           trial_body self messages template results st = (st', Return results') ->
           List.length (message_history (persona st'))
           = (List.length (message_history (persona st)) + 2)%nat)
        /\ exists s' records,
             evaluate self now iterations s = (s', Return records)
             /\ (List.length (message_history (persona s'))
                 >= List.length (message_history (persona s)) + 2 * List.length records)%nat).
Proof.
  split; intros Ha.
  - rewrite evaluate_eq.
    pose (I := fun (_ : nat) (st : state) (_ : list dict) =>
                 same_identity (persona st) (persona s)
                 /\ exists new, requests st = requests s ++ new
                      /\ Forall (fun h => before_append h = [system_turn (persona s)]
                                          /\ List.length (before_append h) = 1%nat) new).
    destruct (for_each_invariant I
                (trial self (_prepare_evaluation_messages self)
                   (entry_template now (persona s)))) with
      (xs := py_range 1 (Z.max iterations 1 + 1)) (k := 0%nat)
      (a := @nil dict) (s := s) as (s' & records & Hf & _ & new & Hreq & Hall).
    + intros k x a st (Hid & new & Hreq & Hall).
      pose proof (trial_identity self (_prepare_evaluation_messages self)
                    (entry_template now (persona s)) x a st) as Hid'.
      destruct (trial_requests_reset self (_prepare_evaluation_messages self)
                  (entry_template now (persona s)) x a st Ha) as (new' & Hreq' & Hall').
      pose proof (trial_eq self (_prepare_evaluation_messages self)
                    (entry_template now (persona s)) x a st) as Ht.
      destruct (trial self (_prepare_evaluation_messages self)
                  (entry_template now (persona s)) x a st) as [st' out] eqn:Et.
      assert (Hout : exists a', out = Return a').
      { destruct (interact (VList (_prepare_evaluation_messages self)) (before_trial self st))
          as [s1 [r|e]]; injection Ht as _ ->; eauto. }
      destruct Hout as (a' & ->). exists st', a'. split; [reflexivity |].
      cbn [fst] in Hid', Hreq'. split.
      * unfold same_identity in *. congruence.
      * exists (new ++ new'). split; [rewrite Hreq', Hreq; now rewrite app_assoc |].
        apply Forall_app. split; [exact Hall |].
        rewrite (same_identity_system_turn _ _ Hid) in Hall'.
        eapply Forall_impl; [| exact Hall']. cbv beta. intros h Hh.
        split; [exact Hh | now rewrite Hh].
    + split; [reflexivity |]. exists []. split; [now rewrite app_nil_r | constructor].
    + exists s', records, new. now repeat split.
  - split.
    + intros messages template results results' st st' Hb.
      apply trial_body_success in Hb.
      destruct Hb as (pm & b & response & _ & _ & -> & _).
      unfold before_trial. rewrite Ha. cbn. rewrite !length_app. cbn. lia.
    + rewrite evaluate_eq.
      pose (I := fun (_ : nat) (st : state) (acc : list dict) =>
                   (List.length (message_history (persona st))
                    >= List.length (message_history (persona s)) + 2 * List.length acc)%nat).
      destruct (for_each_invariant I
                  (trial self (_prepare_evaluation_messages self)
                     (entry_template now (persona s)))) with
        (xs := py_range 1 (Z.max iterations 1 + 1)) (k := 0%nat)
        (a := @nil dict) (s := s) as (s' & records & Hf & HI).
      * intros k x a st HI. unfold I in *.
        destruct (trial_growth_no_reset self (_prepare_evaluation_messages self)
                    (entry_template now (persona s)) x a st Ha) as (a' & Hs & Hg & Hl).
        destruct (trial self (_prepare_evaluation_messages self)
                    (entry_template now (persona s)) x a st) as [st' out].
        cbn [fst snd] in *. subst out. exists st', a'. split; [reflexivity | lia].
      * unfold I. cbn. lia.
      * exists s', records. split; [exact Hf | exact HI].
Qed.

Lemma dict_get_update_absent (k : string) (other d : dict) :
  dict_get k other = None -> dict_get k (dict_update d other) = dict_get k d.
Proof.
  unfold dict_update. revert d.
  induction other as [|[key v] other IH]; intros d H; simpl in *; [reflexivity |].
  destruct (String.eqb_spec key k) as [->|Hk]; [discriminate |].
  rewrite (IH _ H), dict_get_setitem.
  destruct (String.eqb_spec key k); [contradiction | reflexivity].
Qed.

Lemma dict_get_update_present (k : string) (v : value) (other d : dict) :
  NoDup (map fst other) -> dict_get k other = Some v ->
  dict_get k (dict_update d other) = Some v.
Proof.
  intros Hnd H. now rewrite dict_get_update, (dict_update_nil_get k other Hnd), H.
Qed.

Lemma entry_of_response_return (self : EvaluatorBase) (template : dict)
    (response : string) (entry : dict) :
  entry_of_response self template response = Return entry <->
  exists o, processed_entry_of self response = Return (VDict o)
            /\ entry = dict_update template o.
Proof.
  unfold entry_of_response. split.
  - destruct (processed_entry_of self response) as [v|e]; [| discriminate].
    destruct v as [| | | | | |o]; try discriminate.
    cbn. intros H. injection H as <-. now exists o.
  - intros (o & -> & ->). reflexivity.
Qed.

Lemma length_results_after (self : EvaluatorBase) (template : dict)
    (results : list dict) (response : string) :
  (List.length (results_after self template results response)
   <= Datatypes.S (List.length results))%nat.
Proof.
  unfold results_after. destruct (entry_of_response self template response);
    rewrite ?length_app; cbn; lia.
Qed.



(** [evaluate] always returns, with at most one record per iteration,
    and with exactly one per iteration when every trial goes through. *)
Lemma evaluate_count (self : EvaluatorBase) (now : string) (iterations : Z) (s : state) :
  exists s' records,
    evaluate self now iterations s = (s', Return records)
    /\ (List.length records <= Z.to_nat (Z.max iterations 1))%nat
    /\ (backend_always_good self -> images_readable self ->
        List.length records = Z.to_nat (Z.max iterations 1)).
Proof.
  rewrite evaluate_eq.
  set (messages := _prepare_evaluation_messages self).
  set (template := entry_template now (persona s)).
  pose (I := fun (k : nat) (_ : state) (acc : list dict) =>
               (List.length acc <= k)%nat
               /\ (backend_always_good self -> images_readable self ->
                   List.length acc = k)).
  destruct (for_each_invariant I (trial self messages template)) with
    (xs := py_range 1 (Z.max iterations 1 + 1)) (k := 0%nat)
    (a := @nil dict) (s := s) as (s' & records & Hf & Hle & Heq).
  - intros k x a st (Hle & Heq).
    destruct (trial self messages template x a st) as [st' out] eqn:Et.
    rewrite trial_eq in Et.
    assert (Hgood : backend_always_good self -> images_readable self ->
                    exists entry, out = Return (a ++ [entry])).
    { intros Hb Hr.
      destruct (prepared_messages_normalise self (persona (before_trial self st)) Hr)
        as (pm & Hpm). fold messages in Hpm.
      destruct (Hb (remote (before_trial self st))
                   (message_history (persona (before_trial self st)) ++ [user_turn pm]))
        as (b' & response & Hl & o & Ho).
      rewrite interact_eq in Et. cbn [as_list] in Et.
      rewrite Hpm, send_user_turn_eq in Et. cbv zeta in Et. rewrite Hl in Et.
      injection Et as _ <-. unfold results_after.
      rewrite (proj2 (entry_of_response_return self template response
                        (dict_update template o))) by (now exists o).
      now exists (dict_update template o). }
    destruct (interact (VList messages) (before_trial self st)) as [s1 [response|e]];
      injection Et as <- <-.
    + exists s1, (results_after self template a response). split; [reflexivity |].
      pose proof (length_results_after self template a response). split; [lia |].
      intros Hb Hr. destruct (Hgood Hb Hr) as (entry & E). injection E as ->.
      rewrite length_app. cbn. rewrite (Heq Hb Hr). lia.
    + exists s1, a. split; [reflexivity |]. split; [lia |].
      intros Hb Hr. destruct (Hgood Hb Hr) as (entry & E). injection E as E.
      apply (f_equal (@List.length dict)) in E. rewrite length_app in E. cbn in E. lia.
  - split; [cbn; lia | reflexivity].
  - rewrite length_py_range in Hle, Heq.
    replace (Z.max iterations 1 + 1 - 1)%Z with (Z.max iterations 1) in * by lia.
    exists s', records. cbn in Hle. repeat split; assumption.
Qed.

(** C4, as the code has it.  [evaluate] returns at most
    max(iterations, 1) records, and exactly that many when every
    configured image that exists can be read and the backend always
    answers with a text whose brace-matched candidate decodes to an
    object that passes the hook; an iterations value below 1 behaves as
    1. *)
Theorem C4_record_count (self : EvaluatorBase) (now : string) (iterations : Z)
    (s : state) :
  (exists s' records,
     evaluate self now iterations s = (s', Return records)
     /\ (List.length records <= Z.to_nat (Z.max iterations 1))%nat
     /\ (backend_always_good self -> images_readable self ->
         List.length records = Z.to_nat (Z.max iterations 1)))
  /\ ((iterations < 1)%Z -> evaluate self now iterations s = evaluate self now 1 s).
Proof.
  split; [apply evaluate_count |].
  intros H. rewrite !evaluate_eq. now replace (Z.max iterations 1) with (Z.max 1 1) by lia.
Qed.

(** C1, as the code has it.  Every record that [evaluate] returns is the
    processed object of some response merged over the base record, and
    in that merge the object wins on every key it has, the keys
    timestamp, persona_name and model included; the base record answers
    only for the keys the object does not have. *)
Theorem C1_object_fields_win (self : EvaluatorBase) (now : string) (iterations : Z)
    (s s' : state) (records : list dict) :
  evaluate self now iterations s = (s', Return records) ->
  let base := entry_template now (persona s) in
  Forall (fun record =>
            exists response o,
              processed_entry_of self response = Return (VDict o)
              /\ record = dict_update base o
              /\ (forall key v, NoDup (map fst o) -> dict_get key o = Some v ->
                                dict_get key record = Some v)
              /\ (forall key, dict_get key o = None ->
                              dict_get key record = dict_get key base))
         records.
Proof.
  intros He base. rewrite evaluate_eq in He. fold base in He.
  set (P := fun record : dict =>
              exists response o,
                processed_entry_of self response = Return (VDict o)
                /\ record = dict_update base o
                /\ (forall key v, NoDup (map fst o) -> dict_get key o = Some v ->
                                  dict_get key record = Some v)
                /\ (forall key, dict_get key o = None ->
                                dict_get key record = dict_get key base)).
  destruct (for_each_invariant (fun _ (_ : state) acc => Forall P acc)
              (trial self (_prepare_evaluation_messages self) base)) with
    (xs := py_range 1 (Z.max iterations 1 + 1)) (k := 0%nat)
    (a := @nil dict) (s := s) as (s2 & records2 & Hf & HP).
  - intros k x a st Ha. rewrite trial_eq.
    destruct (interact (VList (_prepare_evaluation_messages self)) (before_trial self st))
      as [s1 [response|e]]; [| now exists s1, a].
    exists s1, (results_after self base a response). split; [reflexivity |].
    unfold results_after.
    destruct (entry_of_response self base response) as [entry|e] eqn:Hen; [| exact Ha].
    apply entry_of_response_return in Hen. destruct Hen as (o & Ho & ->).
    apply Forall_app. split; [exact Ha |]. constructor; [| constructor].
    exists response, o. repeat split; try assumption.
    + intros key v Hnd Hk. now apply dict_get_update_present.
    + intros key Hk. now apply dict_get_update_absent.
  - constructor.
  - rewrite Hf in He. injection He as _ <-. exact HP.
Qed.

End RunnerClaims.

(** ** Failure isolation with a scripted backend *)




(** ** Concrete runs *)



Lemma C10_witness :
  recognized (VInt 3) = false
  /\ Forall (fun x => recognized x = false)
       (as_list (VList [VInt 3; VDict [("type", VStr "video")]; VNone]))
  /\ interact (W := demo) (VList [VStr "hi"; VInt 3]) (demo_state [Return "ok"])
     = interact (W := demo) (VList [VStr "hi"]) (demo_state [Return "ok"])
  /\ interact (W := demo) (VList [VInt 3; VDict [("type", VStr "video")]; VNone])
       (demo_state [Return "ok"])
     = (after_answer (W := demo) (demo_state [Return "ok"])
          [system_turn demo_persona; user_turn []] [] "ok",
        Return "ok").
Proof.
  assert (H1 : recognized (VInt 3) = false) by reflexivity.
  assert (H2 : Forall (fun x => recognized x = false)
                 (as_list (VList [VInt 3; VDict [("type", VStr "video")]; VNone])))
    by (repeat constructor).
  split; [exact H1 |]. split; [exact H2 |].
  pose proof (C10_unrecognized_parts_omitted (W := demo) (demo_state [Return "ok"])
                [VStr "hi"] [] (VInt 3)
                (VList [VInt 3; VDict [("type", VStr "video")]; VNone]) H1 H2) as H.
  split; [exact (proj1 (proj2 H)) | exact (proj2 (proj2 H))].
Defined.

Lemma C6_witness :
  let s := demo_state [Raise (ExternalError "timeout"); Return "ok"] in
  let h := [system_turn demo_persona; user_turn [text_part "hello"]] in
  interact (W := demo) (VStr "hello") s
  = (after_failure (W := demo) s h [Return "ok"], Raise (ExternalError "timeout"))
  /\ requests (fst (interact (W := demo) (VStr "again")
                      (after_failure (W := demo) s h [Return "ok"])))
     = [h; h ++ [user_turn [text_part "again"]]].
Proof.
  cbv zeta.
  pose proof (C6_backend_failure_keeps_user_turn (W := demo)
                (demo_state [Raise (ExternalError "timeout"); Return "ok"])
                (VStr "hello") [text_part "hello"] [Return "ok"]
                (ExternalError "timeout") eq_refl eq_refl) as H.
  cbv zeta in H. destruct H as (H1 & _ & _ & H4).
  split; [exact H1 |].
  exact (H4 (VStr "again") [text_part "again"] eq_refl).
Defined.

Lemma C5_witness :
  absent_image (W := demo) [("type", VStr "image"); ("path", VStr "/nonexistent.png")]
    "/nonexistent.png"
  /\ interact (W := demo)
       (VList ([VStr "look"; image_part "/screens/home.png"]
               ++ image_part "/nonexistent.png" :: [VStr "later"]))
       (demo_state [Return "ok"])
     = (demo_state [Return "ok"], Raise (FileNotFoundError "/nonexistent.png"))
  /\ interact (W := demo)
       (VList ([VStr "look"; image_part "/screens"]
               ++ image_part "/nonexistent.png" :: [VStr "later"]))
       (demo_state [Return "ok"])
     = (demo_state [Return "ok"], Raise (IsADirectoryError "/screens")).
Proof.
  assert (H : absent_image (W := demo)
                [("type", VStr "image"); ("path", VStr "/nonexistent.png")]
                "/nonexistent.png") by (repeat split).
  split; [exact H |]. split.
  - exact (proj1 (proj2 (C5_missing_image_leaves_state (W := demo)
                           (demo_state [Return "ok"])
                           [VStr "look"; image_part "/screens/home.png"] [VStr "later"]
                           _ _ H)) _ eq_refl).
  - exact (proj2 (proj2 (C5_missing_image_leaves_state (W := demo)
                           (demo_state [Return "ok"])
                           [VStr "look"; image_part "/screens"] [VStr "later"]
                           _ _ H)) _ eq_refl).
Defined.

(** C5 as stated fails where an earlier part raises first: with a
    directory given as an image before the absent one, [interact] raises
    the is-a-directory error, not the file-not-found error. *)
Lemma C5_counterexample :
  let parts := [image_part "/screens"; image_part "/nonexistent.png"] in
  absent_image (W := demo) [("type", VStr "image"); ("path", VStr "/nonexistent.png")]
    "/nonexistent.png"
  /\ In (image_part "/nonexistent.png") parts
  /\ interact (W := demo) (VList parts) (demo_state [Return "ok"])
     = (demo_state [Return "ok"], Raise (IsADirectoryError "/screens"))
  /\ forall path,
       snd (interact (W := demo) (VList parts) (demo_state [Return "ok"]))
       <> Raise (FileNotFoundError path).
Proof.
  cbv zeta. split; [repeat split |]. split; [right; left; reflexivity |].
  split; [reflexivity |]. intros path. vm_compute. discriminate.
Qed.

Lemma C9_witness :
  (auto_reset (demo_evaluator true) = true
   /\ exists s' records new,
        evaluate (W := demo) (demo_evaluator true) "T0" 3
          (demo_state [Return answer_1; Return answer_2; Return answer_3])
        = (s', Return records)
        /\ requests s' = [] ++ new
        /\ Forall (fun h => before_append h = [system_turn demo_persona]
                            /\ List.length (before_append h) = 1%nat) new)
  /\ (auto_reset (demo_evaluator false) = false
      /\ exists s' records,
           evaluate (W := demo) (demo_evaluator false) "T0" 3
             (demo_state [Return answer_1; Return answer_2; Return answer_3])
           = (s', Return records)
           /\ (List.length (message_history (persona s'))
               >= 1 + 2 * List.length records)%nat).
Proof.
  split.
  - split; [reflexivity |].
    exact (proj1 (C9_auto_reset_history_length (W := demo) (demo_evaluator true) "T0" 3
                    (demo_state [Return answer_1; Return answer_2; Return answer_3]))
                 eq_refl).
  - split; [reflexivity |].
    exact (proj2 (proj2 (C9_auto_reset_history_length (W := demo) (demo_evaluator false)
                           "T0" 3
                           (demo_state [Return answer_1; Return answer_2; Return answer_3]))
                        eq_refl)).
Defined.

Example run_without_reset :
  message_history
    (persona (fst (evaluate (W := demo) (demo_evaluator false) "T0" 3
                     (demo_state [Return answer_1; Return answer_2; Return answer_3]))))
  = [system_turn demo_persona;
     user_turn [text_part "Rate it."; image_url_part "TWFu"]; assistant_turn answer_1;
     user_turn [text_part "Rate it."; image_url_part "TWFu"]; assistant_turn answer_2;
     user_turn [text_part "Rate it."; image_url_part "TWFu"]; assistant_turn answer_3].
Proof. vm_compute. reflexivity. Qed.

Lemma C4_witness :
  let W := constant (Return answer_3) demo_fs in
  backend_always_good (W := W) (demo_evaluator false)
  /\ images_readable (W := W) (demo_evaluator false)
  /\ (exists s' records,
        evaluate (W := W) (demo_evaluator false) "T0" 4 (init_state (W := W) demo_persona 0%nat)
        = (s', Return records)
        /\ List.length records = 4%nat)
  /\ (-2 < 1)%Z
  /\ evaluate (W := W) (demo_evaluator false) "T0" (-2) (init_state (W := W) demo_persona 0%nat)
     = evaluate (W := W) (demo_evaluator false) "T0" 1 (init_state (W := W) demo_persona 0%nat).
Proof.
  cbv zeta.
  assert (Hb : backend_always_good (W := constant (Return answer_3) demo_fs)
                 (demo_evaluator false)).
  { intros b h. exists (S b), answer_3. split; [reflexivity |].
    exists [("q01", VInt 4); ("q02", VDict [("why", VStr "clear")])].
    vm_compute. reflexivity. }
  assert (Hr : images_readable (W := constant (Return answer_3) demo_fs)
                 (demo_evaluator false)).
  { intros path Hin. simpl in Hin.
    destruct Hin as [<-|[<-|[]]]; vm_compute; discriminate. }
  split; [exact Hb |]. split; [exact Hr |]. split; [| split; [lia |]].
  - destruct (proj1 (C4_record_count (W := constant (Return answer_3) demo_fs)
                       (demo_evaluator false) "T0" 4
                       (init_state (W := constant (Return answer_3) demo_fs)
                          demo_persona 0%nat)))
      as (s' & records & He & _ & Heq).
    exists s', records. split; [exact He | exact (Heq Hb Hr)].
  - apply (proj2 (C4_record_count (W := constant (Return answer_3) demo_fs)
                    (demo_evaluator false) "T0" (-2)
                    (init_state (W := constant (Return answer_3) demo_fs)
                       demo_persona 0%nat))).
    lia.
Defined.

(** C4 as stated fails on a well-formed object with a brace inside a
    string: the backend always returns it, the candidate stops at the
    brace in the string, the decoder refuses it, and [evaluate] returns
    no record for one iteration. *)
Lemma C4_counterexample :
  let W := constant (Return answer_brace_in_string) empty_fs in
  (forall (b : nat) (h : list turn),
     exists b' response,
       llm_invoke (Collaborators := W) b h = (b', Return response)
       /\ contains_json_object response)
  /\ snd (evaluate (W := W) (NielsenEvaluator "Rate it." true) "T0" 1
            (init_state (W := W) demo_persona 0%nat))
     = Return []
  /\ List.length (@nil dict) <> Z.to_nat (Z.max 1 1).
Proof.
  cbv zeta. split; [| split].
  - intros b h. exists (S b), answer_brace_in_string. split; [reflexivity |].
    exists EmptyString, answer_brace_in_string, EmptyString, [("a", VStr "}")].
    split; vm_compute; reflexivity.
  - vm_compute. reflexivity.
  - vm_compute. discriminate.
Qed.

Lemma C1_witness :
  let s := demo_state [Return answer_colliding] in
  let s' := fst (evaluate (W := demo) (demo_evaluator true) "T0" 1 s) in
  let records := [[("timestamp", VStr "1999"); ("persona_name", VStr "Mallory");
                   ("model", VStr "none"); ("q01", VInt 5)]] in
  evaluate (W := demo) (demo_evaluator true) "T0" 1 s = (s', Return records)
  /\ Forall (fun record =>
               exists response o,
                 processed_entry_of (W := demo) (demo_evaluator true) response
                 = Return (VDict o)
                 /\ record = dict_update (entry_template "T0" demo_persona) o
                 /\ (forall key v, NoDup (map fst o) -> dict_get key o = Some v ->
                                   dict_get key record = Some v)
                 /\ (forall key, dict_get key o = None ->
                                 dict_get key record
                                 = dict_get key (entry_template "T0" demo_persona)))
            records.
Proof.
  cbv zeta.
  assert (Hs : snd (evaluate (W := demo) (demo_evaluator true) "T0" 1
                      (demo_state [Return answer_colliding]))
               = Return [[("timestamp", VStr "1999"); ("persona_name", VStr "Mallory");
                          ("model", VStr "none"); ("q01", VInt 5)]])
    by (vm_compute; reflexivity).
  assert (He : evaluate (W := demo) (demo_evaluator true) "T0" 1
                 (demo_state [Return answer_colliding])
               = (fst (evaluate (W := demo) (demo_evaluator true) "T0" 1
                         (demo_state [Return answer_colliding])),
                  Return [[("timestamp", VStr "1999"); ("persona_name", VStr "Mallory");
                           ("model", VStr "none"); ("q01", VInt 5)]]))
    by (rewrite <- Hs; apply surjective_pairing).
  split; [exact He |].
  pose proof (C1_object_fields_win (W := demo) (demo_evaluator true) "T0" 1
                (demo_state [Return answer_colliding]) _ _ He) as H.
  cbv zeta in H.
  change (persona (demo_state [Return answer_colliding])) with demo_persona in H.
  exact H.
Defined.

(** C1 as stated fails on an answer that names the keys of the base
    record: the record carries the answer's timestamp, persona name and
    model, not those of the call and the persona. *)
Lemma C1_counterexample :
  let base := entry_template "T0" demo_persona in
  let out := evaluate (W := demo) (demo_evaluator true) "T0" 1
               (demo_state [Return answer_colliding]) in
  base = [("timestamp", VStr "T0"); ("persona_name", VStr "Alice");
          ("model", VStr "gpt-x")]
  /\ snd out
     = Return [[("timestamp", VStr "1999"); ("persona_name", VStr "Mallory");
                ("model", VStr "none"); ("q01", VInt 5)]]
  /\ exists record,
       snd out = Return [record]
       /\ dict_get "timestamp" record <> dict_get "timestamp" base
       /\ dict_get "persona_name" record <> dict_get "persona_name" base
       /\ dict_get "model" record <> dict_get "model" base.
Proof.
  cbv zeta. split; [reflexivity |]. split; [vm_compute; reflexivity |].
  eexists. split; [vm_compute; reflexivity |].
  repeat split; vm_compute; discriminate.
Qed.

(** The audio branch with a transcriber attached by hand: the part
    becomes a text part with the transcription, and a transcription
    error comes out of [interact] unchanged. *)
Lemma audio_part_with_transcriber {W : Collaborators} (s : state)
    (t : WhisperTranscriber) (path : string) (acc : list value) :
  whisper_transcriber (persona s) = Some t ->
  process_messages (persona s) [audio_part path] acc
  = match transcribe t (VStr path) with
    | Return transcription => Return (acc ++ [text_part transcription])
    | Raise e => Raise e
    end.
Proof.
  intros H. cbn. unfold self_transcribe. rewrite H.
  destruct (transcribe t (VStr path)); reflexivity.
Qed.

(** No operation of the engine attaches a transcriber. *)
Lemma evaluate_keeps_no_transcriber {W : Collaborators} (self : EvaluatorBase)
    (now : string) (iterations : Z) (s : state) :
  whisper_transcriber (persona s) = None ->
  whisper_transcriber (persona (fst (evaluate self now iterations s))) = None.
Proof.
  intros H. rewrite evaluate_eq.
  destruct (for_each_invariant
              (fun _ (st : state) (_ : list dict) => whisper_transcriber (persona st) = None)
              (trial self (_prepare_evaluation_messages self)
                 (entry_template now (persona s)))) with
    (xs := py_range 1 (Z.max iterations 1 + 1)) (k := 0%nat)
    (a := @nil dict) (s := s) as (s' & records & Hf & HI).
  - intros k x a st Hst.
    pose proof (trial_identity self (_prepare_evaluation_messages self)
                  (entry_template now (persona s)) x a st) as Hid.
    pose proof (trial_eq self (_prepare_evaluation_messages self)
                  (entry_template now (persona s)) x a st) as Ht.
    destruct (trial self (_prepare_evaluation_messages self)
                (entry_template now (persona s)) x a st) as [st' out].
    apply same_identity_transcriber in Hid. cbn [fst] in Hid.
    assert (Hout : exists a', out = Return a').
    { destruct (interact (VList (_prepare_evaluation_messages self)) (before_trial self st))
        as [s1 [r|e]]; injection Ht as _ ->; eauto. }
    destruct Hout as (a' & ->). exists st', a'. split; [reflexivity | congruence].
  - exact H.
  - now rewrite Hf.
Qed.

(** * Further properties of the code *)

(** ** Extraction *)

Lemma brace_depth_append (a b : string) :
  brace_depth (a ++ b)%string = (brace_depth a + brace_depth b)%Z.
Proof. induction a as [|c a IH]; simpl; [reflexivity | rewrite IH; lia]. Qed.

Lemma string_snoc (s : string) :
  s = EmptyString \/ exists front c, s = (front ++ String c EmptyString)%string.
Proof.
  induction s as [|x s IH]; [now left | right].
  destruct IH as [->|(front & c & ->)].
  - now exists EmptyString, x.
  - now exists (String x front), c.
Qed.

Lemma brace_delta_close (c : ascii) : (brace_delta c < 0)%Z -> c = "}"%char.
Proof.
  unfold brace_delta. destruct (is_open c); [lia |].
  destruct (is_close c) eqn:H; [| lia].
  intros _. unfold is_close in H. now apply Ascii.eqb_eq in H.
Qed.

Lemma matched_object_shape (candidate : string) :
  matched_object candidate ->
  exists body, candidate = String "{" (body ++ String "}" EmptyString)%string.
Proof.
  intros ((b & ->) & Hz & Hp).
  destruct (string_snoc b) as [->|(front & c & ->)].
  - cbn in Hz. discriminate.
  - exists front. f_equal. f_equal.
    specialize (Hp (String "{" front) (String c EmptyString) eq_refl).
    assert (H1 : (0 < brace_depth (String "{" front))%Z)
      by (apply Hp; discriminate).
    change (String "{" (front ++ String c EmptyString))%string
      with (String "{" front ++ String c EmptyString)%string in Hz.
    rewrite brace_depth_append in Hz. cbn [brace_depth] in Hz.
    f_equal. apply brace_delta_close. cbn [brace_depth] in H1. lia.
Qed.

Lemma re_search_brace_skip (pre text : string) :
  no_open_brace pre -> re_search_brace (pre ++ text) = re_search_brace text.
Proof.
  unfold no_open_brace. induction pre as [|c pre IH]; intros H; simpl; [reflexivity |].
  rewrite (H c (or_introl eq_refl)). apply IH. intros x Hx. apply H. now right.
Qed.

(** X1. Extraction ends in one of three ways: a candidate, the error for
    a text with no opening brace, or the error for a text whose first
    opening brace is never closed.  Its [stack.pop()] never runs on an
    empty stack, and the first error is raised exactly for the texts with
    no opening brace. *)
Theorem extract_json_outcomes (text : string) :
  ((exists candidate, _extract_json text = Return candidate)
   \/ _extract_json text = Raise (ValueError "No JSON object found in text")
   \/ _extract_json text = Raise (ValueError "Could not extract complete JSON object"))
  /\ (forall msg, _extract_json text <> Raise (IndexError msg))
  /\ (_extract_json text = Raise (ValueError "No JSON object found in text")
      <-> no_open_brace text).
Proof.
  rewrite extract_json_by_depth. unfold extract_by_depth.
  destruct (re_search_brace text) as [fb|] eqn:Hs.
  - assert (Hno : ~ no_open_brace text).
    { intros H. apply re_search_brace_none in H. congruence. }
    destruct (scan_depth fb 0 []) as [c|]; repeat split; eauto;
      try discriminate; try (intros H; congruence); try (intros H; contradiction).
  - apply re_search_brace_none in Hs. repeat split; auto; discriminate.
Qed.

(** X2. Extraction is idempotent: a candidate it returns extracts to
    itself. *)
Theorem extract_json_idempotent (text candidate : string) :
  _extract_json text = Return candidate ->
  _extract_json candidate = Return candidate.
Proof.
  intros H. apply extract_json_matched in H. destruct H as (pre & post & _ & _ & Hm).
  apply extract_json_matched. exists EmptyString, EmptyString.
  split; [cbn; now rewrite append_nil_r |]. split; [intros c [] | exact Hm].
Qed.

Lemma extract_json_idempotent_witness :
  _extract_json example_prose = Return (py "{'q01': 5, 'q02': 3}")
  /\ _extract_json (py "{'q01': 5, 'q02': 3}") = Return (py "{'q01': 5, 'q02': 3}").
Proof.
  split; [reflexivity |].
  exact (extract_json_idempotent example_prose _ eq_refl).
Defined.

(** X3. The prose around the object does not matter: text put in front
    changes nothing as long as it has no opening brace, and text put
    behind a text that extracts changes nothing at all. *)
Theorem extract_json_ignores_prose (pre text post candidate : string) :
  no_open_brace pre ->
  _extract_json text = Return candidate ->
  _extract_json (pre ++ text)%string = Return candidate
  /\ _extract_json (text ++ post)%string = Return candidate
  /\ (forall other, _extract_json (pre ++ other)%string = _extract_json other).
Proof.
  intros Hpre H. assert (Hall : forall other,
    _extract_json (pre ++ other)%string = _extract_json other).
  { intros other. unfold _extract_json. now rewrite re_search_brace_skip. }
  split; [now rewrite Hall |]. split; [| exact Hall].
  apply extract_json_matched in H. destruct H as (p & q & -> & Hp & Hm).
  apply extract_json_matched. exists p, (q ++ post)%string.
  split; [now rewrite !append_assoc |]. now split.
Qed.

Lemma extract_json_ignores_prose_witness :
  no_open_brace "Sure: "
  /\ _extract_json example_nested = Return example_nested
  /\ _extract_json ("Sure: " ++ example_nested)%string = Return example_nested
  /\ _extract_json (example_nested ++ " {later}")%string = Return example_nested.
Proof.
  assert (H : no_open_brace "Sure: ").
  { intros c Hc. simpl in Hc.
    repeat (destruct Hc as [<-|Hc]; [reflexivity |]). contradiction. }
  split; [exact H |]. split; [reflexivity |].
  pose proof (extract_json_ignores_prose "Sure: " example_nested " {later}"
                example_nested H eq_refl) as (H1 & H2 & _).
  split; [exact H1 | exact H2].
Defined.

(** X4. A candidate that extraction returns begins with an opening
    brace, ends with a closing brace, has as many opening as closing
    braces, and is at least two characters long. *)
Theorem extract_json_candidate_shape (text candidate : string) :
  _extract_json text = Return candidate ->
  (exists body, candidate = String "{" (body ++ String "}" EmptyString)%string)
  /\ brace_depth candidate = 0%Z
  /\ (2 <= String.length candidate)%nat.
Proof.
  intros H. apply extract_json_matched in H. destruct H as (pre & post & _ & _ & Hm).
  destruct (matched_object_shape candidate Hm) as (body & ->).
  split; [now exists body |]. split; [apply Hm |].
  cbn. clear. induction body as [|c body IH]; cbn in *; lia.
Qed.

Lemma extract_json_candidate_shape_witness :
  _extract_json example_prose = Return (py "{'q01': 5, 'q02': 3}")
  /\ (2 <= String.length (py "{'q01': 5, 'q02': 3}"))%nat.
Proof.
  split; [reflexivity |].
  exact (proj2 (proj2 (extract_json_candidate_shape example_prose _ eq_refl))).
Defined.

(** ** The persona, further *)

Section PersonaExtras.

Context {W : Collaborators}.

(** X5. [interact] only ever appends to the history and changes nothing
    else of the persona, and what it appends is decided by where it
    fails.  When normalising the message raises, the whole state stays as
    it was, nothing is appended and that exception comes out.  When
    normalisation returns the parts and the backend, called on the
    history with the new user turn, raises, exactly the user turn is
    appended and the backend's exception comes out.  When the backend
    returns a text, the user turn and the assistant turn holding that
    text are appended and the text is returned. *)
Theorem interact_only_appends (messages : value) (s : state) :
  let s' := fst (interact messages s) in
  let r := snd (interact messages s) in
  same_identity (persona s') (persona s)
  /\ ((exists e,
         process_messages (persona s) (as_list messages) [] = Raise e
         /\ s' = s
         /\ message_history (persona s') = message_history (persona s)
         /\ r = Raise e)
      \/ (exists pm b e,
            process_messages (persona s) (as_list messages) [] = Return pm
            /\ llm_invoke (remote s) (message_history (persona s) ++ [user_turn pm])
               = (b, Raise e)
            /\ message_history (persona s')
               = message_history (persona s) ++ [user_turn pm]
            /\ r = Raise e)
      \/ (exists pm b response,
            process_messages (persona s) (as_list messages) [] = Return pm
            /\ llm_invoke (remote s) (message_history (persona s) ++ [user_turn pm])
               = (b, Return response)
            /\ message_history (persona s')
               = message_history (persona s) ++ [user_turn pm; assistant_turn response]
            /\ r = Return response)).
Proof.
  cbv zeta. destruct (interact messages s) as [s1 r] eqn:Hi.
  apply interact_cases in Hi. cbn [fst snd].
  destruct Hi as [(-> & e & -> & Hp)
                 |(pm & b & Hp & [(e & -> & Hb & ->)|(response & -> & Hb & ->)])].
  - split; [reflexivity |]. left. exists e. now repeat split.
  - split; [reflexivity |]. right. left. exists pm, b, e.
    split; [exact Hp |]. split; [exact Hb |]. split; reflexivity.
  - split; [reflexivity |]. right. right. exists pm, b, response.
    split; [exact Hp |]. split; [exact Hb |]. split; [| reflexivity].
    cbn. now rewrite <- app_assoc.
Qed.

Lemma stored_text_part (text : string) : stored_part (text_part text).
Proof. eexists. split; [reflexivity | now left]. Qed.

Lemma stored_image_url_part (img_base64 : string) :
  stored_part (image_url_part img_base64).
Proof. eexists. split; [reflexivity | now right]. Qed.

Lemma process_messages_stored (self : ActivePersona) (messages acc pm : list value) :
  process_messages self messages acc = Return pm ->
  Forall stored_part acc ->
  Forall stored_part pm
  /\ List.length pm = (List.length acc + List.length (filter recognized messages))%nat.
Proof.
  revert acc. induction messages as [|m messages IH]; intros acc H Hacc.
  - injection H as <-. split; [exact Hacc | cbn; lia].
  - assert (Hsnoc : forall part, stored_part part ->
              process_messages self messages (acc ++ [part]) = Return pm ->
              Forall stored_part pm
              /\ List.length pm
                 = (List.length acc + Datatypes.S (List.length (filter recognized messages)))%nat).
    { intros part Hp Hrun.
      destruct (IH (acc ++ [part]) Hrun) as (H1 & H2).
      - apply Forall_app. split; [exact Hacc | now constructor].
      - split; [exact H1 |]. rewrite length_app in H2. cbn in H2. lia. }
    cbn [process_messages] in H. cbn [filter].
    destruct m as [| | | | t | l | d]; cbn [recognized];
      try exact (IH acc H Hacc).
    + exact (Hsnoc _ (stored_text_part t) H).
    + destruct (eq_str (dict_get "type" d) "text") eqn:Ht.
      { cbn [orb]. apply (Hsnoc (VDict d)); [| exact H].
        exists d. split; [reflexivity | now left]. }
      destruct (eq_str (dict_get "type" d) "image") eqn:Hi.
      { cbn [orb]. destruct (dict_getitem "path" d) as [image_path|]; [| discriminate].
        destruct (read_image image_path) as [data|]; [| discriminate].
        exact (Hsnoc _ (stored_image_url_part _) H). }
      destruct (eq_str (dict_get "type" d) "audio") eqn:Ha.
      { cbn [orb]. destruct (dict_getitem "path" d) as [audio_path|]; [| discriminate].
        destruct (self_transcribe self audio_path) as [transcription|]; [| discriminate].
        exact (Hsnoc _ (stored_text_part _) H). }
      cbn [orb]. exact (IH acc H Hacc).
Qed.

(** X6. When normalisation succeeds, the user turn holds exactly one part
    for each recognised message and nothing for the others, and every
    part in it is tagged text or image_url: no image or audio part, with
    its file path, is ever stored. *)
Theorem normalised_parts_are_resolved (self : ActivePersona)
    (messages pm : list value) :
  process_messages self messages [] = Return pm ->
  Forall stored_part pm
  /\ List.length pm = List.length (filter recognized messages)
  /\ Forall (fun part =>
               forall d, part = VDict d ->
                 eq_str (dict_get "type" d) "image" = false
                 /\ eq_str (dict_get "type" d) "audio" = false) pm.
Proof.
  intros H. destruct (process_messages_stored self messages [] pm H (Forall_nil _))
    as (H1 & H2).
  split; [exact H1 |]. split; [exact H2 |].
  eapply Forall_impl; [| exact H1]. cbv beta.
  intros part (d & -> & Hd) d' E. injection E as <-.
  destruct (dict_get "type" d) as [[| | | | t | |]|]; cbn in *;
    try (split; reflexivity); try (destruct Hd; discriminate).
  destruct Hd as [Hd|Hd]; apply String.eqb_eq in Hd; subst t; split; reflexivity.
Qed.

(** X7. A bare string, the same string in a list, and the text part that
    holds it are the same message to [interact]; and any value that is
    not a list is treated as the list that holds only it. *)
Theorem interact_bare_message (text : string) (m : value) (s : state) :
  (forall l, m <> VList l) ->
  interact (VStr text) s = interact (VList [VStr text]) s
  /\ interact (VStr text) s = interact (VList [text_part text]) s
  /\ interact m s = interact (VList [m]) s.
Proof.
  intros Hm. repeat split; try reflexivity.
  rewrite !interact_eq. destruct m; try reflexivity. now destruct (Hm l).
Qed.

Lemma interact_identity (messages : value) (s : state) :
  same_identity (persona (fst (interact messages s))) (persona s).
Proof.
  destruct (interact messages s) as [s1 r] eqn:Hi. apply interact_cases in Hi.
  destruct Hi as [(-> & _)|(pm & b & _ & [(e & _ & _ & ->)|(response & _ & _ & ->)])];
    reflexivity.
Qed.

Lemma same_identity_reset (p q : ActivePersona) :
  same_identity p q -> reset_history p = reset_history q.
Proof.
  intros H. unfold reset_history, system_turn, with_history.
  pose proof (f_equal name H) as Hn. pose proof (f_equal llm_client H) as Hc.
  pose proof (f_equal system_prompt H) as Hs.
  pose proof (f_equal whisper_transcriber H) as Hw.
  cbn in Hn, Hc, Hs, Hw. now rewrite Hn, Hc, Hs, Hw.
Qed.

Lemma evaluate_identity (self : EvaluatorBase) (now : string) (iterations : Z)
    (s : state) :
  same_identity (persona (fst (evaluate self now iterations s))) (persona s).
Proof.
  rewrite evaluate_eq.
  destruct (for_each_invariant
              (fun _ (st : state) (_ : list dict) => same_identity (persona st) (persona s))
              (trial self (_prepare_evaluation_messages self)
                 (entry_template now (persona s)))) with
    (xs := py_range 1 (Z.max iterations 1 + 1)) (k := 0%nat)
    (a := @nil dict) (s := s) as (s' & records & Hf & HI).
  - intros k x a st Hst.
    pose proof (trial_identity self (_prepare_evaluation_messages self)
                  (entry_template now (persona s)) x a st) as Hid.
    pose proof (trial_eq self (_prepare_evaluation_messages self)
                  (entry_template now (persona s)) x a st) as Ht.
    destruct (trial self (_prepare_evaluation_messages self)
                (entry_template now (persona s)) x a st) as [st' out].
    cbn [fst] in Hid.
    assert (Hout : exists a', out = Return a').
    { destruct (interact (VList (_prepare_evaluation_messages self)) (before_trial self st))
        as [s1 [r|e]]; injection Ht as _ ->; eauto. }
    destruct Hout as (a' & ->). exists st', a'. split; [reflexivity |].
    unfold same_identity in *. congruence.
  - reflexivity.
  - now rewrite Hf.
Qed.

(** X8. A reset wipes whatever a conversation or a whole evaluation left
    behind: resetting after [interact] or after [evaluate] gives the
    persona that resetting before would have given, which for a persona
    fresh from its constructor is that persona itself. *)
Theorem reset_restores_persona (self : EvaluatorBase) (now : string)
    (iterations : Z) (messages : value) (s : state)
    (name : string) (client : LLMClient) (prompt : option string) :
  reset_history (persona (fst (interact messages s))) = reset_history (persona s)
  /\ reset_history (persona (fst (evaluate self now iterations s)))
     = reset_history (persona s)
  /\ reset_history (ActivePersona__init__ name client prompt)
     = ActivePersona__init__ name client prompt
  /\ message_history (reset_history (persona s)) = [system_turn (persona s)].
Proof.
  split; [| split; [| split; reflexivity]].
  - apply same_identity_reset. apply interact_identity.
  - apply same_identity_reset. apply evaluate_identity.
Qed.

End PersonaExtras.

Lemma normalised_parts_are_resolved_witness :
  process_messages (W := demo) demo_persona
    [VStr "look"; VInt 3; image_part "/screens/home.png"; VDict [("type", VStr "video")]] []
  = Return [text_part "look"; image_url_part "TWFu"]
  /\ List.length [text_part "look"; image_url_part "TWFu"] = 2%nat.
Proof.
  split; [reflexivity |].
  exact (proj1 (proj2 (normalised_parts_are_resolved (W := demo) demo_persona
                         [VStr "look"; VInt 3; image_part "/screens/home.png";
                          VDict [("type", VStr "video")]]
                         [text_part "look"; image_url_part "TWFu"] eq_refl))).
Defined.

Lemma interact_bare_message_witness :
  (forall l, VInt 7 <> VList l)
  /\ interact (W := demo) (VStr "hello") (demo_state [Return "ok"])
     = interact (W := demo) (VList [text_part "hello"]) (demo_state [Return "ok"])
  /\ interact (W := demo) (VInt 7) (demo_state [Return "ok"])
     = interact (W := demo) (VList [VInt 7]) (demo_state [Return "ok"]).
Proof.
  assert (H : forall l, VInt 7 <> VList l) by (intros l; discriminate).
  split; [exact H |].
  pose proof (interact_bare_message (W := demo) "hello" (VInt 7)
                (demo_state [Return "ok"]) H) as (_ & H2 & H3).
  split; [exact H2 | exact H3].
Defined.

(** ** The runner, further *)

Section RunnerExtras.

Context {W : Collaborators}.

Lemma add_images_filter (paths : list string) (messages : list value) :
  add_images paths messages
  = messages ++ map image_part (filter (os_path_exists fs) paths).
Proof.
  revert messages. induction paths as [|path paths IH]; intros messages; simpl.
  - now rewrite app_nil_r.
  - destruct (os_path_exists fs path); rewrite IH; [| reflexivity].
    now rewrite <- app_assoc.
Qed.

(** X9. The prompt of an evaluation is the instruction text followed by
    one image part for each configured path that exists, in the
    configured order; paths that do not exist are dropped and nothing
    else is. *)
Theorem prepared_messages_shape (self : EvaluatorBase) :
  _prepare_evaluation_messages self
  = text_part (evaluation_prompt self)
    :: map image_part (filter (os_path_exists fs) (images_paths self)).
Proof. unfold _prepare_evaluation_messages. now rewrite add_images_filter. Qed.

Lemma process_image_parts (self : ActivePersona) (paths datas : list string)
    (acc : list value) :
  Forall2 (fun img data => open_rb_read fs img = Return data) paths datas ->
  process_messages self (map image_part paths) acc
  = Return (acc ++ map (fun data => image_url_part (b64encode data)) datas).
Proof.
  intros H. revert acc. induction H as [|path data paths datas Hp _ IH]; intros acc; simpl.
  - now rewrite app_nil_r.
  - rewrite Hp, IH. now rewrite <- app_assoc.
Qed.

Lemma filter_exists_readable (images datas : list string) :
  Forall2 (fun img data => open_rb_read fs img = Return data) images datas ->
  filter (os_path_exists fs) images = images.
Proof.
  induction 1 as [|img data images datas Hi _ IH]; simpl; [reflexivity |].
  assert (He : os_path_exists fs img = true).
  { unfold os_path_exists. unfold open_rb_read in Hi.
    destruct (fs img); [discriminate | reflexivity | reflexivity]. }
  now rewrite He, IH.
Qed.

(** X10. Images that can be read all reach the model.  When opening and
    reading each configured image returns its bytes, the prompt keeps
    every image, and its normalisation returns the instruction text
    followed by the inline base64 image of each file's bytes, in the
    order of the configured paths. *)
Theorem readable_images_reach_the_model (self : EvaluatorBase) (p : ActivePersona)
    (datas : list string) :
  Forall2 (fun img data => open_rb_read fs img = Return data) (images_paths self) datas ->
  _prepare_evaluation_messages self
  = text_part (evaluation_prompt self) :: map image_part (images_paths self)
  /\ process_messages p (_prepare_evaluation_messages self) []
     = Return (text_part (evaluation_prompt self)
               :: map (fun data => image_url_part (b64encode data)) datas).
Proof.
  intros H.
  unfold _prepare_evaluation_messages.
  rewrite add_images_filter, (filter_exists_readable _ _ H). split; [reflexivity |].
  cbn [process_messages text_part eq_str dict_get String.eqb Ascii.eqb Bool.eqb].
  change (process_messages p (map image_part (images_paths self))
            ([] ++ [VDict [("type", VStr "text"); ("text", VStr (evaluation_prompt self))]])
          = Return (text_part (evaluation_prompt self)
                    :: map (fun data => image_url_part (b64encode data)) datas)).
  now rewrite (process_image_parts p _ datas).
Qed.

(** X11. [evaluate] calls the backend at most once per iteration and
    never retries: the number of records is at most the number of
    conversations it sent, which is at most max(iterations, 1). *)
Theorem evaluate_backend_calls (self : EvaluatorBase) (now : string)
    (iterations : Z) (s : state) :
  exists s' records new,
    evaluate self now iterations s = (s', Return records)
    /\ requests s' = requests s ++ new
    /\ (List.length records <= List.length new)%nat
    /\ (List.length new <= Z.to_nat (Z.max iterations 1))%nat.
Proof.
  rewrite evaluate_eq.
  set (messages := _prepare_evaluation_messages self).
  set (template := entry_template now (persona s)).
  pose (I := fun (k : nat) (st : state) (acc : list dict) =>
               exists new, requests st = requests s ++ new
                           /\ (List.length acc <= List.length new)%nat
                           /\ (List.length new <= k)%nat).
  destruct (for_each_invariant I (trial self messages template)) with
    (xs := py_range 1 (Z.max iterations 1 + 1)) (k := 0%nat)
    (a := @nil dict) (s := s) as (s' & records & Hf & new & Hreq & H1 & H2).
  - intros k x a st (new & Hreq & H1 & H2). rewrite trial_eq.
    assert (Hb : requests (before_trial self st) = requests st)
      by (unfold before_trial; destruct (auto_reset self); reflexivity).
    destruct (interact (VList messages) (before_trial self st)) as [s1 r] eqn:Hi.
    apply interact_cases in Hi.
    destruct Hi as [(-> & e & -> & _)|(pm & b & _ & [(e & -> & _ & ->)|(response & -> & _ & ->)])].
    + exists (before_trial self st), a. split; [reflexivity |].
      exists new. rewrite Hb. repeat split; [exact Hreq | lia | lia].
    + eexists _, a. split; [reflexivity |]. eexists (new ++ [_]). cbn [requests after_failure].
      rewrite Hb, Hreq, <- app_assoc. split; [reflexivity |].
      rewrite length_app. cbn. lia.
    + eexists _, _. split; [reflexivity |]. eexists (new ++ [_]). cbn [requests after_answer].
      rewrite Hb, Hreq, <- app_assoc. split; [reflexivity |].
      pose proof (length_results_after self template a response).
      rewrite length_app. cbn. lia.
  - exists []. rewrite app_nil_r. cbn. repeat split; lia.
  - rewrite length_py_range in H2.
    replace (Z.max iterations 1 + 1 - 1)%Z with (Z.max iterations 1) in H2 by lia.
    exists s', records, new. cbn in H2. repeat split; assumption.
Qed.

Lemma py_range_nonempty (iterations : Z) :
  exists x xs, py_range 1 (Z.max iterations 1 + 1) = x :: xs.
Proof.
  pose proof (length_py_range 1 (Z.max iterations 1 + 1)) as H.
  destruct (py_range 1 (Z.max iterations 1 + 1)) as [|x xs]; [| now exists x, xs].
  cbn in H. lia.
Qed.

(** X12. With [auto_reset] an evaluation does not depend on what the
    persona talked about before: started from any history it behaves as
    started from the reset persona, in state, backend calls and records. *)
Theorem evaluate_forgets_history (self : EvaluatorBase) (now : string)
    (iterations : Z) (s : state) :
  auto_reset self = true ->
  evaluate self now iterations s
  = evaluate self now iterations (set_persona s (reset_history (persona s))).
Proof.
  intros Ha. rewrite !evaluate_eq.
  destruct (py_range_nonempty iterations) as (x & xs & ->).
  cbn [for_each]. unfold bind. rewrite !trial_eq.
  unfold before_trial. rewrite Ha. reflexivity.
Qed.

(** X13. What an evaluation leaves in the history.  With [auto_reset] it
    is the system turn followed by at most the two turns of the last
    iteration; without it the history from before the call is kept as a
    prefix. *)
Theorem evaluate_history_shape (self : EvaluatorBase) (now : string)
    (iterations : Z) (s : state) :
  let s' := fst (evaluate self now iterations s) in
  (auto_reset self = true ->
     exists tail, message_history (persona s') = system_turn (persona s) :: tail
                  /\ (List.length tail <= 2)%nat)
  /\ (auto_reset self = false ->
        exists suffix, message_history (persona s')
                       = message_history (persona s) ++ suffix).
Proof.
  cbv zeta. split; intros Ha; rewrite evaluate_eq.
  - set (body := trial self (_prepare_evaluation_messages self)
                   (entry_template now (persona s))).
    pose (I := fun (k : nat) (st : state) (_ : list dict) =>
                 same_identity (persona st) (persona s)
                 /\ (k = 0%nat
                     \/ exists tail,
                          message_history (persona st) = system_turn (persona s) :: tail
                          /\ (List.length tail <= 2)%nat)).
    destruct (for_each_invariant I body) with
      (xs := py_range 1 (Z.max iterations 1 + 1)) (k := 0%nat)
      (a := @nil dict) (s := s) as (s' & records & Hf & Hid & [Hk|Ht]).
    + intros k x a st (Hid & _). unfold body. rewrite trial_eq.
      unfold before_trial. rewrite Ha.
      pose proof (same_identity_system_turn _ _ Hid) as Hsys.
      destruct (interact (VList (_prepare_evaluation_messages self))
                  (set_persona st (reset_history (persona st)))) as [s1 r] eqn:Hi.
      apply interact_cases in Hi.
      destruct Hi as [(-> & e & -> & _)|(pm & b & _ & [(e & -> & _ & ->)|(response & -> & _ & ->)])].
      * eexists _, a. split; [reflexivity |]. split; [exact Hid |]. right.
        exists []. cbn. rewrite Hsys. split; [reflexivity | lia].
      * eexists _, a. split; [reflexivity |]. split; [exact Hid |]. right.
        exists [user_turn pm]. cbn. rewrite Hsys. split; [reflexivity | lia].
      * eexists _, _. split; [reflexivity |]. split; [exact Hid |]. right.
        exists [user_turn pm; assistant_turn response]. cbn. rewrite Hsys.
        split; [reflexivity | lia].
    + split; [reflexivity | now left].
    + rewrite length_py_range in Hk. lia.
    + rewrite Hf. exact Ht.
  - set (body := trial self (_prepare_evaluation_messages self)
                   (entry_template now (persona s))).
    pose (I := fun (_ : nat) (st : state) (_ : list dict) =>
                 exists suffix, message_history (persona st)
                                = message_history (persona s) ++ suffix).
    destruct (for_each_invariant I body) with
      (xs := py_range 1 (Z.max iterations 1 + 1)) (k := 0%nat)
      (a := @nil dict) (s := s) as (s' & records & Hf & Hs).
    + intros k x a st (suffix & Hs). unfold body. rewrite trial_eq.
      unfold before_trial. rewrite Ha.
      destruct (interact (VList (_prepare_evaluation_messages self)) st) as [s1 r] eqn:Hi.
      apply interact_cases in Hi.
      destruct Hi as [(-> & e & -> & _)|(pm & b & _ & [(e & -> & _ & ->)|(response & -> & _ & ->)])].
      * eexists _, a. split; [reflexivity |]. now exists suffix.
      * eexists _, a. split; [reflexivity |]. exists (suffix ++ [user_turn pm]).
        cbn. now rewrite Hs, <- app_assoc.
      * eexists _, _. split; [reflexivity |].
        exists (suffix ++ [user_turn pm; assistant_turn response]).
        cbn. rewrite Hs, <- !app_assoc. reflexivity.
    + exists []. now rewrite app_nil_r.
    + rewrite Hf. exact Hs.
Qed.

End RunnerExtras.

Lemma readable_images_reach_the_model_witness :
  let self := set_images (NielsenEvaluator "Rate it." true) ["/screens/home.png"] in
  Forall2 (fun img data => open_rb_read demo_fs img = Return data)
    (images_paths self) ["Man"]
  /\ process_messages (W := demo) demo_persona
       (_prepare_evaluation_messages (W := demo) self) []
     = Return [text_part "Rate it."; image_url_part "TWFu"].
Proof.
  cbv zeta.
  assert (H : Forall2 (fun img data => open_rb_read demo_fs img = Return data)
                (images_paths (set_images (NielsenEvaluator "Rate it." true)
                                 ["/screens/home.png"])) ["Man"]).
  { simpl. constructor; [reflexivity | constructor]. }
  split; [exact H |].
  exact (proj2 (readable_images_reach_the_model (W := demo)
                  (set_images (NielsenEvaluator "Rate it." true) ["/screens/home.png"])
                  demo_persona ["Man"] H)).
Defined.

Lemma evaluate_forgets_history_witness :
  let s := fst (interact (W := demo) (VStr "hello")
                  (demo_state [Return "hi there"; Return answer_1])) in
  auto_reset (demo_evaluator true) = true
  /\ List.length (message_history (persona s)) = 3%nat
  /\ evaluate (W := demo) (demo_evaluator true) "T0" 1 s
     = evaluate (W := demo) (demo_evaluator true) "T0" 1
         (set_persona s (reset_history (persona s))).
Proof.
  cbv zeta. split; [reflexivity |]. split; [reflexivity |].
  exact (evaluate_forgets_history (W := demo) (demo_evaluator true) "T0" 1 _ eq_refl).
Defined.

Lemma evaluate_history_shape_witness :
  (auto_reset (demo_evaluator true) = true
   /\ exists tail,
        message_history
          (persona (fst (evaluate (W := demo) (demo_evaluator true) "T0" 3
                           (demo_state [Return answer_1; Return answer_2; Return answer_3]))))
        = system_turn demo_persona :: tail
        /\ (List.length tail <= 2)%nat)
  /\ (auto_reset (demo_evaluator false) = false
      /\ exists suffix,
           message_history
             (persona (fst (evaluate (W := demo) (demo_evaluator false) "T0" 3
                              (demo_state [Return answer_1; Return answer_2; Return answer_3]))))
           = message_history demo_persona ++ suffix).
Proof.
  split.
  - split; [reflexivity |].
    exact (proj1 (evaluate_history_shape (W := demo) (demo_evaluator true) "T0" 3
                    (demo_state [Return answer_1; Return answer_2; Return answer_3]))
                 eq_refl).
  - split; [reflexivity |].
    exact (proj2 (evaluate_history_shape (W := demo) (demo_evaluator false) "T0" 3
                    (demo_state [Return answer_1; Return answer_2; Return answer_3]))
                 eq_refl).
Defined.

(** ** Records and saving *)

Lemma keys_setitem (key : string) (v : value) (d : dict) :
  exists extra,
    map fst (dict_setitem key v d) = map fst d ++ extra
    /\ (extra = [] \/ (extra = [key] /\ ~ In key (map fst d))).
Proof.
  induction d as [|[k w] d IH]; simpl.
  - exists [key]. split; [reflexivity |]. right. split; [reflexivity | intros []].
  - destruct (String.eqb_spec k key) as [->|Hk]; simpl.
    + exists []. split; [now rewrite app_nil_r | now left].
    + destruct IH as (extra & -> & [->|(-> & Hn)]).
      * exists []. split; [reflexivity | now left].
      * exists [key]. split; [reflexivity |]. right. split; [reflexivity |].
        intros [E|E]; [congruence | contradiction].
Qed.

Lemma keys_update (other d : dict) :
  exists extra,
    map fst (dict_update d other) = map fst d ++ extra
    /\ (NoDup (map fst d) -> NoDup (map fst (dict_update d other))).
Proof.
  unfold dict_update. revert d. induction other as [|[key v] other IH]; intros d; simpl.
  - exists []. split; [now rewrite app_nil_r | tauto].
  - destruct (keys_setitem key v d) as (e1 & E1 & Hcase).
    destruct (IH (dict_setitem key v d)) as (e2 & E2 & Hnd).
    exists (e1 ++ e2). split; [now rewrite E2, E1, app_assoc |].
    intros H. apply Hnd. rewrite E1.
    destruct Hcase as [->|(-> & Hn)]; [now rewrite app_nil_r |].
    apply NoDup_app; [exact H | repeat constructor; intros [] |].
    intros x Hx [<-|[]]. contradiction.
Qed.

Section RecordExtras.

Context {W : Collaborators}.

Lemma evaluate_records_merged (self : EvaluatorBase) (now : string) (iterations : Z)
    (s : state) :
  exists s' records,
    evaluate self now iterations s = (s', Return records)
    /\ Forall (fun record => exists o, record = dict_update (entry_template now (persona s)) o)
         records.
Proof.
  rewrite evaluate_eq. set (base := entry_template now (persona s)).
  destruct (for_each_invariant
              (fun _ (_ : state) acc =>
                 Forall (fun record => exists o, record = dict_update base o) acc)
              (trial self (_prepare_evaluation_messages self) base)) with
    (xs := py_range 1 (Z.max iterations 1 + 1)) (k := 0%nat)
    (a := @nil dict) (s := s) as (s2 & records2 & Hf & HP).
  - intros k x a st Ha. rewrite trial_eq.
    destruct (interact (VList (_prepare_evaluation_messages self)) (before_trial self st))
      as [s1 [response|e]]; [| now exists s1, a].
    exists s1, (results_after self base a response). split; [reflexivity |].
    unfold results_after.
    destruct (entry_of_response self base response) as [entry|e] eqn:Hen; [| exact Ha].
    apply entry_of_response_return in Hen. destruct Hen as (o & _ & ->).
    apply Forall_app. split; [exact Ha |]. constructor; [now exists o | constructor].
  - constructor.
  - now exists s2, records2.
Qed.

(** X14. Every record of an evaluation is a well-formed row: its first
    three columns are timestamp, persona_name and model, in that order,
    whatever the model answered, and no column name occurs twice. *)
Theorem records_keep_base_columns (self : EvaluatorBase) (now : string)
    (iterations : Z) (s : state) :
  exists s' records,
    evaluate self now iterations s = (s', Return records)
    /\ Forall (fun record =>
                 firstn 3 (map fst record) = ["timestamp"; "persona_name"; "model"]
                 /\ NoDup (map fst record)) records.
Proof.
  destruct (evaluate_records_merged self now iterations s) as (s' & records & He & Hm).
  exists s', records. split; [exact He |].
  eapply Forall_impl; [| exact Hm]. cbv beta. intros record (o & ->).
  destruct (keys_update o (entry_template now (persona s))) as (extra & E & Hnd).
  split.
  - rewrite E. reflexivity.
  - apply Hnd. cbn. repeat constructor; cbn; intuition discriminate.
Qed.

Variable write_error : string -> list dict -> option exn.

(** X15. [evaluate_and_save] runs [evaluate] and leaves the persona and
    the backend as [evaluate] does.  Without a destination it writes
    nothing and returns the records.  With one, it writes the records
    once, also when there are none, to the path made of the destination,
    the persona name and the lower-cased class name, and returns them;
    when the write fails, the failure comes out instead of the records
    and nothing is recorded as written. *)
Theorem evaluate_and_save_behaviour (class_name : string) (self : EvaluatorBase)
    (now : string) (iterations : Z) (save_in : option string)
    (st : save_state) :
  exists s' records,
    evaluate self now iterations (engine st) = (s', Return records)
    /\ evaluate_and_save write_error class_name self now iterations save_in st
       = match save_in with
         | None => ({| engine := s'; written := written st |}, Return records)
         | Some dir =>
             let csv_path := results_path dir (name (persona (engine st))) class_name in
             match write_error csv_path records with
             | None =>
                 ({| engine := s'; written := written st ++ [(csv_path, records)] |},
                  Return records)
             | Some e => ({| engine := s'; written := written st |}, Raise e)
             end
         end.
Proof.
  destruct (evaluate_count self now iterations (engine st)) as (s' & records & He & _).
  exists s', records. split; [exact He |].
  pose proof (evaluate_identity self now iterations (engine st)) as Hid.
  rewrite He in Hid. cbn [fst] in Hid.
  pose proof (f_equal name Hid) as Hn. cbn in Hn.
  unfold evaluate_and_save, bind, lift_engine. rewrite He.
  destruct save_in as [dir|]; [| reflexivity].
  cbn [engine]. rewrite Hn. unfold DataFrame_to_csv. cbv zeta.
  destruct (write_error (results_path dir (name (persona (engine st))) class_name)
              records); reflexivity.
Qed.

Lemma try_except_reraise {S A : Type} (m : M S A) (s : S) :
  try_except m (fun e => raise e) s = m s.
Proof. unfold try_except, raise. destruct (m s) as [s' [a|e]]; reflexivity. Qed.

(** X16. The override in [NielsenEvaluator], which wraps the base method
    in a handler that raises again, behaves as the base method for the
    class name NielsenEvaluator; its file is named after the persona
    with the suffix _nielsenevaluator_evaluation_results.csv. *)
Theorem nielsen_evaluate_and_save_is_base (self : EvaluatorBase) (now : string)
    (iterations : Z) (save_in : option string) (st : save_state)
    (dir persona_name : string) :
  NielsenEvaluator_evaluate_and_save write_error self now iterations save_in st
  = evaluate_and_save write_error "NielsenEvaluator" self now iterations save_in st
  /\ results_path dir persona_name "NielsenEvaluator"
     = (dir ++ "/" ++ persona_name ++ "_nielsenevaluator_evaluation_results.csv")%string.
Proof.
  split; [apply try_except_reraise |].
  unfold results_path. cbn [str_lower]. 
  rewrite !append_assoc. reflexivity.
Qed.

End RecordExtras.

(** ** Names of personas *)

Lemma py_split_key (p m : string) :
  no_underscore p ->
  py_split "_" (persona_key p m) = p :: py_split "_" m.
Proof.
  unfold persona_key, no_underscore. induction p as [|c p IH]; intros H.
  - reflexivity.
  - cbn [append py_split]. rewrite (H c (or_introl eq_refl)).
    cbn [append] in IH. rewrite IH; [reflexivity |].
    intros x Hx. apply H. now right.
Qed.

Lemma py_split_head (s m : string) :
  list_getitem0 (py_split "_" (persona_key s m)) = list_getitem0 (py_split "_" s).
Proof.
  unfold persona_key. induction s as [|c s IH].
  - reflexivity.
  - cbn [append py_split]. destruct (Ascii.eqb c "_"); [reflexivity |].
    cbn [append] in IH.
    destruct (py_split "_" (s ++ String "_" m)) as [|w ws],
             (py_split "_" s) as [|w' ws']; cbn in *; congruence.
Qed.

(** X17. The key that names the persona of one persona file and one
    model is taken apart again by the analyser: the persona column it
    derives is the persona name whenever that name has no underscore, in
    general the part of the name before its first underscore; the lookup
    of the first piece never fails, and a null cell gives the empty
    text. *)
Theorem persona_column_round_trip (persona_name model_name : string)
    (x : option string) :
  (no_underscore persona_name ->
     persona_of_name (Some (persona_key persona_name model_name)) = Return persona_name)
  /\ persona_of_name (Some (persona_key persona_name model_name))
     = persona_of_name (Some persona_name)
  /\ (exists persona, persona_of_name x = Return persona)
  /\ persona_of_name None = Return EmptyString.
Proof.
  split; [| split; [| split]].
  - intros H. cbn [persona_of_name]. now rewrite py_split_key.
  - apply py_split_head.
  - destruct x as [s|]; [| now exists EmptyString]. cbn [persona_of_name].
    assert (H : py_split "_" s <> []).
    { destruct s as [|c s]; cbn; [discriminate |].
      destruct (Ascii.eqb c "_"); [discriminate |].
      destruct (py_split "_" s); discriminate. }
    destruct (py_split "_" s) as [|w ws]; [congruence | now exists w].
  - reflexivity.
Qed.

Lemma persona_column_round_trip_witness :
  no_underscore "claudio"
  /\ persona_of_name (Some (persona_key "claudio" "llama")) = Return "claudio"
  /\ persona_of_name (Some (persona_key "maria_jose" "llama")) = Return "maria".
Proof.
  assert (H : no_underscore "claudio").
  { intros c Hc. simpl in Hc.
    repeat (destruct Hc as [<-|Hc]; [reflexivity |]). contradiction. }
  split; [exact H |].
  split; [exact (proj1 (persona_column_round_trip "claudio" "llama" None) H) |].
  reflexivity.
Defined.

(** X18. Keys of distinct persona and model pairs are distinct as long as
    the persona names have no underscore, so no persona of a run
    overwrites another one in the table of personas or in its result
    file. *)
Theorem persona_key_injective (p1 m1 p2 m2 : string) :
  no_underscore p1 -> no_underscore p2 ->
  persona_key p1 m1 = persona_key p2 m2 ->
  p1 = p2 /\ m1 = m2.
Proof.
  unfold persona_key, no_underscore. revert p2.
  induction p1 as [|c p1 IH]; intros [|c2 p2] H1 H2 E; cbn in E.
  - injection E as ->. now split.
  - injection E as <- _. specialize (H2 "_"%char (or_introl eq_refl)). discriminate.
  - injection E as -> _. specialize (H1 "_"%char (or_introl eq_refl)). discriminate.
  - injection E as -> E.
    destruct (IH p2) as (-> & ->); [| | exact E |];
      [intros x Hx; apply H1; now right | intros x Hx; apply H2; now right | now split].
Qed.

Lemma persona_key_injective_witness :
  no_underscore "claudio" /\ no_underscore "ingrid"
  /\ persona_key "claudio" "llama" <> persona_key "ingrid" "llama"
  /\ persona_key "a_b" "c" = persona_key "a" "b_c".
Proof.
  assert (H1 : no_underscore "claudio").
  { intros c Hc. simpl in Hc.
    repeat (destruct Hc as [<-|Hc]; [reflexivity |]). contradiction. }
  assert (H2 : no_underscore "ingrid").
  { intros c Hc. simpl in Hc.
    repeat (destruct Hc as [<-|Hc]; [reflexivity |]). contradiction. }
  split; [exact H1 |]. split; [exact H2 |]. split; [| reflexivity].
  intros E. destruct (persona_key_injective _ _ _ _ H1 H2 E) as (E1 & _). discriminate.
Defined.

(** ** The default transcriber *)

(** X19. The default transcriber is loaded once.  After a call that
    returns, every further call returns the same transcriber and leaves
    the loader untouched; a call that finds a cached transcriber never
    loads; and a call whose load fails leaves the cache empty, so that
    the next call loads again. *)
Theorem default_transcriber_is_cached (Loader : Type)
    (load_model : Loader -> string -> Loader * outcome WhisperTranscriber)
    (c : transcriber_class Loader) :
  let c1 := fst (defaultTranscriber Loader load_model c) in
  let r1 := snd (defaultTranscriber Loader load_model c) in
  (forall t, r1 = Return t ->
     _default_instance Loader c1 = Some t
     /\ defaultTranscriber Loader load_model c1 = (c1, Return t))
  /\ (forall t, _default_instance Loader c = Some t -> c1 = c /\ r1 = Return t)
  /\ (forall e, r1 = Raise e ->
        _default_instance Loader c = None
        /\ _default_instance Loader c1 = None
        /\ load_model (loader Loader c) "small" = (loader Loader c1, Raise e)).
Proof.
  cbv zeta. unfold defaultTranscriber.
  destruct (_default_instance Loader c) as [t0|] eqn:Hc.
  - cbn [fst snd]. split; [| split].
    + intros t E. injection E as <-. rewrite Hc. now split.
    + intros t E. injection E as <-. now split.
    + intros e E. discriminate.
  - destruct (load_model (loader Loader c) "small") as [l [t|e]] eqn:Hl;
      cbn [fst snd]; (split; [| split]).
    + intros t' E. injection E as <-. now split.
    + intros t' E. discriminate.
    + intros e E. discriminate.
    + intros t' E. discriminate.
    + intros t' E. discriminate.
    + intros e' E. injection E as <-. now repeat split.
Qed.

Lemma default_transcriber_is_cached_witness :
  let c0 := {| _default_instance := None; loader := 0%nat |} in
  let c1 := fst (defaultTranscriber nat counting_load c0) in
  snd (defaultTranscriber nat counting_load c0) = Return demo_transcriber
  /\ defaultTranscriber nat counting_load c1 = (c1, Return demo_transcriber)
  /\ loader nat c1 = 1%nat.
Proof.
  cbv zeta. split; [reflexivity |]. split; [| reflexivity].
  exact (proj2 (proj1 (default_transcriber_is_cached nat counting_load
                         {| _default_instance := None; loader := 0%nat |})
                      demo_transcriber eq_refl)).
Defined.

(** ** Clients *)

Lemma rstrip_slash_spec (s : string) :
  (exists n, s = (rstrip_slash s ++ slashes n)%string)
  /\ (forall front, rstrip_slash s <> (front ++ String "/" EmptyString)%string).
Proof.
  induction s as [|c s (( n & IHn) & IHe)]; cbn [rstrip_slash].
  - split; [now exists 0%nat |]. intros [|x front]; discriminate.
  - destruct (rstrip_slash s) as [|k kept] eqn:Hk.
    + destruct (Ascii.eqb_spec c "/") as [->|Hc].
      * split; [exists (S n); cbn; now rewrite IHn at 1 |].
        intros [|x front]; discriminate.
      * split; [exists n; cbn; now rewrite IHn at 1 |].
        intros [|x [|y front]] E; cbn in E; try discriminate. congruence.
    + split; [exists n; cbn; now rewrite IHn at 1 |].
      intros [|x front] E; cbn in E; [discriminate |].
      injection E as _ E. exact (IHe front E).
Qed.

Section ClientExtras.

Variable env : string -> option string.
Variable py_float : string -> outcome value.
Variable OpenAI : string -> value -> option exn.

Lemma call_LLMClient_return (params : dict) (c : LLMClientObject) :
  call_LLMClient OpenAI params = Return c ->
  dict_get "model_name" params = Some (client_model_name c)
  /\ exists url, dict_get "base_url" params = Some (VStr url)
                 /\ client_base_url c = rstrip_slash url.
Proof.
  unfold call_LLMClient, LLMClient__init__.
  destruct (forallb _ params); [| discriminate].
  destruct (dict_get "base_url" params) as [[| | | | url | |]|]; try discriminate;
    destruct (dict_get "api_key" params) as [api_key|]; try discriminate;
    destruct (dict_get "model_name" params) as [model_name|]; try discriminate.
  destruct (OpenAI (rstrip_slash url) api_key); [discriminate |].
  intros H. injection H as <-. cbn. split; [reflexivity | now exists url].
Qed.

(** X20. The base URL an [LLMClient] keeps never ends with a slash, and
    it is the given URL with nothing but trailing slashes removed; a
    base URL that is not a string makes the constructor fail. *)
Theorem client_base_url_has_no_trailing_slash
    (base_url api_key model_name temperature stream : value) (c : LLMClientObject) :
  LLMClient__init__ OpenAI base_url api_key model_name temperature stream = Return c ->
  exists url n,
    base_url = VStr url
    /\ url = (client_base_url c ++ slashes n)%string
    /\ (forall front, client_base_url c <> (front ++ String "/" EmptyString)%string)
    /\ client_model_name c = model_name.
Proof.
  unfold LLMClient__init__. destruct base_url as [| | | | url | |]; try discriminate.
  destruct (OpenAI (rstrip_slash url) api_key); [discriminate |].
  intros H. injection H as <-. cbn.
  destruct (rstrip_slash_spec url) as ((n & Hn) & He).
  exists url, n. repeat split; assumption.
Qed.

(** X21. Which model a created client talks to: a model_name given as a
    keyword wins; otherwise the environment variable of the model type
    wins; otherwise the default of the table is used.  A model type that
    is not in the table gets no client but a [ValueError]. *)
Theorem create_client_model_name (model_type : string) (kwargs : dict)
    (c : LLMClientObject) :
  create_client env py_float OpenAI model_type kwargs = Return c ->
  exists env_key default_value,
    assoc_get model_type MODEL_CONFIGS = Some (env_key, default_value)
    /\ In model_type get_available_models
    /\ (dict_get "model_name" kwargs = None ->
        client_model_name c = VStr (match env env_key with
                                    | Some v => v
                                    | None => default_value
                                    end))
    /\ (forall v, NoDup (map fst kwargs) -> dict_get "model_name" kwargs = Some v ->
                  client_model_name c = v).
Proof.
  unfold create_client.
  destruct (assoc_get model_type MODEL_CONFIGS) as [[env_key default_value]|] eqn:Hcfg;
    [| discriminate].
  destruct (py_float (os_getenv env "MODEL_TEMPERATURE" "1.0")) as [temperature|];
    [| discriminate].
  cbn [obind]. intros H. apply call_LLMClient_return in H. destruct H as (Hm & _).
  exists env_key, default_value. split; [reflexivity |]. split; [| split].
  - clear - Hcfg. unfold get_available_models.
    induction MODEL_CONFIGS as [|[k v] l IH]; cbn in *; [discriminate |].
    destruct (String.eqb_spec k model_type); [now left | right; now apply IH].
  - intros Hk. rewrite dict_get_update_absent in Hm by exact Hk.
    cbn in Hm. injection Hm as <-. reflexivity.
  - intros v Hnd Hk. rewrite (dict_get_update_present _ _ _ _ Hnd Hk) in Hm.
    now injection Hm as <-.
Qed.

Lemma assoc_get_set {V : Type} (key k : string) (v : V) (d : list (string * V)) :
  assoc_get k (assoc_set key v d) = if String.eqb key k then Some v else assoc_get k d.
Proof.
  induction d as [|[k0 w] d IH]; simpl.
  - reflexivity.
  - destruct (String.eqb_spec k0 key) as [->|Hk0]; simpl.
    + destruct (String.eqb_spec key k); reflexivity.
    + destruct (String.eqb_spec k0 k) as [->|Hk].
      * destruct (String.eqb_spec key k) as [->|]; [congruence | reflexivity].
      * exact IH.
Qed.

Lemma create_clients_loop_get (model_types : list string)
    (clients : list (string * LLMClientObject)) (t : string) :
  assoc_get t (create_clients_loop env py_float OpenAI model_types clients)
  = match existsb (String.eqb t) model_types,
          create_client env py_float OpenAI t [] with
    | true, Return c => Some c
    | _, _ => assoc_get t clients
    end.
Proof.
  revert clients. induction model_types as [|m l IH]; intros clients; cbn.
  - reflexivity.
  - destruct (String.eqb_spec t m) as [<-|Hne]; cbn.
    + destruct (create_client env py_float OpenAI t []) as [c|e] eqn:Hc;
        rewrite IH, ?Hc.
      * rewrite assoc_get_set, String.eqb_refl. now destruct (existsb _ l).
      * now destruct (existsb _ l).
    + destruct (create_client env py_float OpenAI m []) as [c|e]; rewrite IH.
      * rewrite assoc_get_set.
        destruct (String.eqb_spec m t); [congruence | reflexivity].
      * reflexivity.
Qed.

(** X22. [create_clients] gives a client for exactly the requested model
    types for which [create_client] succeeds, each being the client that
    [create_client] returns; a type that fails, for one because it is
    not in the table, is skipped without stopping the others. *)
Theorem create_clients_table (model_types : list string) (t : string) :
  assoc_get t (create_clients env py_float OpenAI model_types)
  = (if existsb (String.eqb t) model_types
     then match create_client env py_float OpenAI t [] with
          | Return c => Some c
          | Raise _ => None
          end
     else None)
  /\ (assoc_get t MODEL_CONFIGS = None ->
      assoc_get t (create_clients env py_float OpenAI model_types) = None).
Proof.
  unfold create_clients. rewrite create_clients_loop_get. split.
  - destruct (existsb _ model_types); [| reflexivity].
    now destruct (create_client env py_float OpenAI t []).
  - intros H. unfold create_client. rewrite H. now destruct (existsb _ model_types).
Qed.

End ClientExtras.

Lemma client_base_url_witness :
  let c := {| client_base_url := "http://localhost:11434/v1";
              client_api_key := VNone;
              client_model_name := VStr "anthropic/claude-opus";
              client_temperature := VFloat "1.0";
              client_stream := VBool true |} in
  create_client demo_env demo_float demo_OpenAI "claude" [] = Return c
  /\ LLMClient__init__ demo_OpenAI (VStr "http://localhost:11434/v1//") VNone
       (VStr "anthropic/claude-opus") (VFloat "1.0") (VBool true) = Return c
  /\ exists url n,
       VStr "http://localhost:11434/v1//" = VStr url
       /\ url = (client_base_url c ++ slashes n)%string
       /\ (forall front, client_base_url c <> (front ++ String "/" EmptyString)%string)
       /\ client_model_name c = VStr "anthropic/claude-opus".
Proof.
  cbv zeta. split; [reflexivity |]. split; [reflexivity |].
  exact (client_base_url_has_no_trailing_slash demo_OpenAI
           (VStr "http://localhost:11434/v1//") VNone
           (VStr "anthropic/claude-opus") (VFloat "1.0") (VBool true) _ eq_refl).
Defined.

Lemma create_clients_table_witness :
  assoc_get "gpt4" MODEL_CONFIGS = None
  /\ assoc_get "gpt4"
       (create_clients demo_env demo_float demo_OpenAI ["claude"; "gpt4"; "llama"]) = None
  /\ map fst (create_clients demo_env demo_float demo_OpenAI ["claude"; "gpt4"; "llama"])
     = ["claude"; "llama"].
Proof.
  split; [reflexivity |]. split; [| reflexivity].
  exact (proj2 (create_clients_table demo_env demo_float demo_OpenAI
                  ["claude"; "gpt4"; "llama"] "gpt4") eq_refl).
Defined.

Lemma create_client_model_name_witness :
  exists c,
    create_client demo_env demo_float demo_OpenAI "gemini" [] = Return c
    /\ client_model_name c = VStr "google/gemini-2.5-pro"
    /\ exists c',
         create_client demo_env demo_float demo_OpenAI "gemini"
           [("model_name", VStr "my-model")] = Return c'
         /\ client_model_name c' = VStr "my-model".
Proof.
  eexists. split; [reflexivity |]. split.
  - destruct (create_client_model_name demo_env demo_float demo_OpenAI "gemini" [] _ eq_refl)
      as (k & d & Hcfg & _ & H1 & _).
    injection Hcfg as <- <-. exact (H1 eq_refl).
  - eexists. split; [reflexivity |].
    destruct (create_client_model_name demo_env demo_float demo_OpenAI "gemini"
                [("model_name", VStr "my-model")] _ eq_refl)
      as (k & d & _ & _ & _ & H2).
    apply H2; [repeat constructor; intros [] | reflexivity].
Defined.

(** ** Decoded objects and the merge *)

Lemma members_dict (fuel : nat) (s : string) (pairs : dict) (v : value) (r : string) :
  Json.members fuel s pairs = Some (v, r) -> exists d, v = VDict d.
Proof.
  revert s pairs. induction fuel as [|fuel IH]; intros s pairs H.
  - discriminate.
  - cbn [Json.members] in H.
    destruct s as [|c s]; [discriminate |].
    destruct (Ascii.eqb c dquote); [| discriminate].
    destruct (Json.scan_string s []) as [[key r1]|]; [| discriminate].
    destruct (Json.skip_ws r1) as [|c1 r2]; [discriminate |].
    destruct c1 as [[] [] [] [] [] [] [] []]; try discriminate.
    destruct (Json.scan_value fuel (Json.skip_ws r2)) as [[v1 r3]|]; [| discriminate].
    destruct (Json.skip_ws r3) as [|c3 r4]; [discriminate |].
    destruct c3 as [[] [] [] [] [] [] [] []]; try discriminate;
      first [exact (IH _ _ H) | injection H as <- _; eauto].
Qed.

Lemma decode_object_is_dict (body : string) (v : value) :
  Json.decode (String "{" body) = Some v -> exists d, v = VDict d.
Proof.
  unfold Json.decode.
  change (Json.skip_ws (String "{" body)) with (String "{" body).
  cbn [Json.scan_value].
  change (Ascii.eqb "{" dquote) with false. change (Ascii.eqb "{" "{") with true.
  cbv iota.
  destruct (Json.skip_ws body) as [|c r] eqn:Hb.
  - destruct (Json.members _ _ _) as [[v1 r1]|] eqn:Hm; [| discriminate].
    destruct (Json.skip_ws r1); [| discriminate].
    intros E. injection E as <-. exact (members_dict _ _ _ _ _ Hm).
  - destruct c as [[] [] [] [] [] [] [] []];
      try (destruct (Json.members _ _ _) as [[v1 r1]|] eqn:Hm; [| discriminate];
           destruct (Json.skip_ws r1); [| discriminate];
           intros E; injection E as <-; exact (members_dict _ _ _ _ _ Hm)).
    destruct (Json.skip_ws r); [| discriminate]. intros E. injection E as <-. eauto.
Qed.

(** X23. With the decoder of the standard library and the hook of the
    base class, the merge itself cannot fail: a response yields no entry
    only because it has no opening brace, because its first opening
    brace is never closed, or because the extracted candidate does not
    decode. *)
Theorem entry_fails_only_in_extraction_or_decoding {W : Collaborators}
    (self : EvaluatorBase) (template : dict) (response : string) (e : exn) :
  json_decode = Json.decode ->
  (forall v, _preprocess_entry self v = Return v) ->
  entry_of_response self template response = Raise e ->
  e = ValueError "No JSON object found in text"
  \/ e = ValueError "Could not extract complete JSON object"
  \/ exists candidate,
       _extract_json response = Return candidate
       /\ Json.decode candidate = None
       /\ e = JSONDecodeError candidate.
Proof.
  intros Hdec Hhook. unfold entry_of_response, processed_entry_of.
  destruct (_extract_json response) as [candidate|e0] eqn:Hx.
  - cbn [obind]. unfold json_loads. rewrite Hdec.
    destruct (Json.decode candidate) as [v|] eqn:Hd.
    + cbn [obind]. rewrite Hhook. cbn [obind].
      apply extract_json_matched in Hx.
      destruct Hx as (_ & _ & _ & _ & (body & ->) & _).
      destruct (decode_object_is_dict body v Hd) as (d & ->). discriminate.
    + cbn [obind]. intros E. injection E as <-. right. right. now exists candidate.
  - cbn [obind]. intros E. injection E as <-.
    rewrite extract_json_by_depth in Hx. unfold extract_by_depth in Hx.
    destruct (re_search_brace response) as [fb|].
    + destruct (scan_depth fb 0 []); [discriminate |]. injection Hx as <-. now right; left.
    + injection Hx as <-. now left.
Qed.

Lemma entry_fails_only_witness :
  json_decode (Collaborators := demo) = Json.decode
  /\ (forall v, _preprocess_entry (demo_evaluator true) v = Return v)
  /\ entry_of_response (W := demo) (demo_evaluator true)
       (entry_template "T0" demo_persona) answer_2
     = Raise (JSONDecodeError (py "{'q01': five}"))
  /\ (JSONDecodeError (py "{'q01': five}") = ValueError "No JSON object found in text"
      \/ JSONDecodeError (py "{'q01': five}")
         = ValueError "Could not extract complete JSON object"
      \/ exists candidate,
           _extract_json answer_2 = Return candidate
           /\ Json.decode candidate = None
           /\ JSONDecodeError (py "{'q01': five}") = JSONDecodeError candidate).
Proof.
  split; [reflexivity |]. split; [reflexivity |]. split; [reflexivity |].
  exact (entry_fails_only_in_extraction_or_decoding (W := demo) (demo_evaluator true)
           (entry_template "T0" demo_persona) answer_2 _ eq_refl
           (fun v => eq_refl) eq_refl).
Defined.
